(** * CIFAR-10 ResNet driver ([official/resnet/cifar10_main.py])

    A shallow embedding of the record decoder, the input pipeline and the
    layer policy of [cifar10_main.py], and the properties of the
    specification checked against it.

    Conventions.
    - Python integers are [Z]; [%] and [//] with a positive divisor are
      [Z.modulo] and [Z.div] (both floor towards minus infinity).
    - A raw record is a [list Byte.byte]; a [uint8] tensor element is the
      [Z] in [0, 255] of its byte.
    - [float32] is the IEEE-754 binary32 format, through the Standard
      Library's [SpecFloat] at precision 24 and maximal exponent 128.
    - A rank-3 tensor is a nested list, outermost dimension first.
    - The order in which the framework adds the elements of a reduction is
      not fixed by the driver; the float32 sums inside
      [per_image_standardization] are those of a [Reduction], a parameter
      of the development, and the properties hold for every one.
    - A raised exception or a failed framework op is the [Raise] case of
      [result]; code that draws random numbers or opens files runs in the
      monad [M] over an explicit [world]. *)

From Stdlib Require Import ZArith QArith Strings.Byte Ascii String List Lia SpecFloat.
From stdpp Require Import base option list list_numbers strings pretty gmap.

Local Open Scope Z_scope.

(** ** Exceptions and results *)

Inductive exn : Type :=
| AssertionError (msg : string)
| ValueError (msg : string) (arg : Z)
| InvalidArgumentError (msg : string)
| NotFoundError (path : string)
| ConfigError (msg : string).

Inductive result (A : Type) : Type :=
| Ok (a : A)
| Raise (e : exn).
Arguments Ok {A} a.
Arguments Raise {A} e.

Definition is_ok {A} (r : result A) : bool :=
  match r with Ok _ => true | Raise _ => false end.

#[global] Instance result_ret : MRet result := fun _ a => Ok a.
#[global] Instance result_bind : MBind result := fun _ _ k r =>
  match r with Ok a => k a | Raise e => Raise e end.

(** ** Module constants (lines 29-39) *)

Definition _HEIGHT : Z := 32.
Definition _WIDTH : Z := 32.
Definition _NUM_CHANNELS : Z := 3.
Definition _DEFAULT_IMAGE_SIZE : Z := _HEIGHT * _WIDTH * _NUM_CHANNELS.
Definition _NUM_CLASSES : Z := 10.
Definition _NUM_DATA_FILES : Z := 5.

Inductive split : Type := train | validation.

Definition _NUM_IMAGES (s : split) : Z :=
  match s with train => 50000 | validation => 10000 end.

(** The uint8 value of a byte. *)
Definition uint8 (b : byte) : Z := Z.of_N (Byte.to_N b).

(** ** The framework's tensors and ops

    The ops of the imported framework that the driver calls, with the
    behaviour the framework documents for them. *)

Module tf.

(** *** float32 *)

Definition float32 : Type := spec_float.
Definition prec : Z := 24.
Definition emax : Z := 128.

Definition f32_of_Z (z : Z) : float32 := binary_normalize prec emax z 0 false.
Definition f32_zero : float32 := S754_zero false.
Definition f32_one : float32 := SFone prec emax.

Definition add : float32 -> float32 -> float32 := SFadd prec emax.
Definition subtract : float32 -> float32 -> float32 := SFsub prec emax.
Definition multiply : float32 -> float32 -> float32 := SFmul prec emax.
Definition div : float32 -> float32 -> float32 := SFdiv prec emax.
Definition sqrt : float32 -> float32 := SFsqrt prec emax.
Definition square (x : float32) : float32 := multiply x x.
Definition rsqrt (x : float32) : float32 := div f32_one (sqrt x).
Definition maximum (x y : float32) : float32 := if SFltb x y then y else x.
Definition relu (x : float32) : float32 := maximum x f32_zero.

(** The rational number a finite float stands for. *)
Definition f32_value (x : float32) : option Q :=
  match x with
  | S754_zero _ => Some (inject_Z 0)
  | S754_finite s m e =>
      Some (Qred (inject_Z (cond_Zopp s (Zpos m)) * Qpower (inject_Z 2) e))
  | S754_infinity _ | S754_nan => None
  end.

(** *** Tensors *)

Abbreviation tensor1 A := (list A) (only parsing).
Abbreviation tensor3 A := (list (list (list A))) (only parsing).

(** [t[i][j][k]]. *)
Definition at3 {A} (t : tensor3 A) (i j k : nat) : option A :=
  row ← t !! i; cell ← row !! j; cell !! k.

(** [t] has shape [[d0, d1, d2]]. *)
Definition has_shape {A} (t : tensor3 A) (d0 d1 d2 : nat) : Prop :=
  length t = d0 /\
  Forall (fun row => length row = d1 /\
                     Forall (fun cell => length cell = d2) row) t.

Definition map3 {A B} (f : A -> B) (t : tensor3 A) : tensor3 B :=
  fmap (M:=list) (fmap (M:=list) (fmap (M:=list) f)) t.

(** [tf.decode_raw(bytes, tf.uint8)]: one element per byte. *)
Definition decode_raw (raw : list byte) : tensor1 Z := uint8 <$> raw.

(** [v[i]] with a constant index: a strided slice that shrinks the axis;
    the op is rejected when the index is outside the dimension. *)
Definition index {A} (v : tensor1 A) (i : nat) : result A :=
  match v !! i with
  | Some x => Ok x
  | None => Raise (InvalidArgumentError "slice index out of bounds")
  end.

(** [v[lo:hi]]: both ends are clamped to the dimension, as in Python. *)
Definition slice {A} (v : tensor1 A) (lo hi : Z) : tensor1 A :=
  take (Z.to_nat (hi - lo)) (drop (Z.to_nat lo) v).

(** [k] consecutive rows of [n] elements. *)
Fixpoint rows {A} (n k : nat) (l : list A) : list (list A) :=
  match k with
  | O => []
  | S k' => take n l :: rows n k' (drop n l)
  end.

(** [tf.reshape(v, [d0, d1, d2])], row-major; rejected unless [v] has
    exactly [d0 * d1 * d2] elements. *)
Definition reshape {A} (v : tensor1 A) (d0 d1 d2 : Z) : result (tensor3 A) :=
  if decide (Z.of_nat (length v) = d0 * d1 * d2 /\ 0 <= d0 /\ 0 <= d1 /\ 0 <= d2)
  then Ok (rows (Z.to_nat d2) (Z.to_nat d1)
             <$> rows (Z.to_nat (d1 * d2)) (Z.to_nat d0) v)
  else Raise (InvalidArgumentError
                "Input to reshape does not match the requested shape").

(** Transpose of an [r x ncols] matrix given as a list of rows. *)
Fixpoint transpose2 {A} (ncols : nat) (m : list (list A)) : list (list A) :=
  match m with
  | [] => replicate ncols []
  | row :: rest => zip_with cons row (transpose2 ncols rest)
  end.

(** [tf.transpose(t, [1, 2, 0])] of a tensor of shape [[d0, d1, d2]]:
    the result has shape [[d1, d2, d0]] and
    [result[j][k][i] = t[i][j][k]]. First the two outer axes are
    exchanged, then the two inner axes of every slice. *)
Definition transpose_120 {A} (d1 d2 : Z) (t : tensor3 A) : tensor3 A :=
  transpose2 (Z.to_nat d2) <$> transpose2 (Z.to_nat d1) t.

(** [tf.cast(x, tf.int32)] of a uint8: the same integer. *)
Definition cast_int32 (x : Z) : Z := x.

(** [tf.cast(t, tf.float32)] of a uint8 tensor. *)
Definition cast_float32 (t : tensor3 Z) : tensor3 float32 := map3 f32_of_Z t.

(** [tf.one_hot(indices, depth)] for a scalar index: entry [i] is [1.0]
    when [i = indices] and [0.0] otherwise; an index outside
    [0, depth) gives the all-zero vector. *)
Definition one_hot (indices : Z) (depth : Z) : tensor1 float32 :=
  (fun i => if decide (Z.of_nat i = indices) then f32_one else f32_zero)
    <$> seq 0 (Z.to_nat depth).

End tf.

(** ** The record decoder (lines 68-92) *)

Abbreviation Image := (list (list (list tf.float32))) (only parsing).
Abbreviation Label := (list tf.float32) (only parsing).

Definition parse_record (raw_record : list byte) : result (Image * Label) :=
  let label_bytes := 1 in
  let record_bytes := label_bytes + _DEFAULT_IMAGE_SIZE in
  let record_vector := tf.decode_raw raw_record in
  byte0 ← tf.index record_vector 0;
  let label := tf.cast_int32 byte0 in
  let label := tf.one_hot label _NUM_CLASSES in
  depth_major ← tf.reshape (tf.slice record_vector label_bytes record_bytes)
                           _NUM_CHANNELS _HEIGHT _WIDTH;
  let image := tf.cast_float32 (tf.transpose_120 _HEIGHT _WIDTH depth_major) in
  mret (image, label).

(** ** The world: file system, random draws, files opened *)

Record world : Type := World {
  dirs : gset string;               (* the directories that exist *)
  files : gmap string (list byte);  (* the regular files and their bytes *)
  draws : nat -> Z;                 (* the stream of random words *)
  cursor : nat;                     (* how many words were drawn *)
  opened : list string              (* the files opened so far, in order *)
}.

Definition M (A : Type) : Type := world -> result A * world.

#[global] Instance M_ret : MRet M := fun _ a w => (Ok a, w).
#[global] Instance M_bind : MBind M := fun _ _ k m w =>
  match m w with
  | (Ok a, w') => k a w'
  | (Raise e, w') => (Raise e, w')
  end.

Definition raise {A} (e : exn) : M A := fun w => (Raise e, w).
Definition lift {A} (r : result A) : M A := fun w => (r, w).

(** The next word of the random stream. *)
Definition random_word : M Z := fun w =>
  (Ok (draws w (cursor w)),
   World (dirs w) (files w) (draws w) (S (cursor w)) (opened w)).

(** Opening a file for reading; the open is logged. *)
Definition read_file (path : string) : M (list byte) := fun w =>
  let w' := World (dirs w) (files w) (draws w) (cursor w) (opened w ++ [path]) in
  match files w !! path with
  | Some content => (Ok content, w')
  | None => (Raise (NotFoundError path), w')
  end.

(** ** [os.path] *)

Module os.
Module path.

Definition starts_with_sep (s : string) : bool :=
  match s with
  | String c _ => bool_decide (c = "/"%char)
  | EmptyString => false
  end.

Fixpoint ends_with_sep (s : string) : bool :=
  match s with
  | EmptyString => false
  | String c EmptyString => bool_decide (c = "/"%char)
  | String _ rest => ends_with_sep rest
  end.

(** [posixpath.join] with two components. *)
Definition join (a b : string) : string :=
  if starts_with_sep b then b
  else if bool_decide (a = "") || ends_with_sep a then a +:+ b
  else a +:+ "/" +:+ b.

(** [os.path.exists] ([exists] is a keyword here): [p] is a directory or
    a file of the world. *)
Definition exists_ (p : string) : M bool := fun w =>
  (Ok (bool_decide (p ∈ dirs w) || bool_decide (is_Some (files w !! p))), w).

End path.
End os.

(** [range(lo, hi)]. *)
Definition range (lo hi : Z) : list Z := seqZ lo (hi - lo).

(** ** Image ops of the framework *)

Module tf_image.
Import tf.

Definition height {A} (img : tensor3 A) : Z := Z.of_nat (length img).
Definition width {A} (img : tensor3 A) : Z :=
  match img with [] => 0 | row :: _ => Z.of_nat (length row) end.
Definition depth {A} (img : tensor3 A) : Z :=
  match img with (cell :: _) :: _ => Z.of_nat (length cell) | _ => 0 end.

Definition crop_to_bounding_box {A} (img : tensor3 A)
    (offset_height offset_width target_height target_width : Z) : tensor3 A :=
  (fun row => take (Z.to_nat target_width) (drop (Z.to_nat offset_width) row))
    <$> take (Z.to_nat target_height) (drop (Z.to_nat offset_height) img).

(** Zero padding around the image up to the target size. *)
Definition pad_to_bounding_box (img : tensor3 float32)
    (offset_height offset_width target_height target_width : Z)
    : tensor3 float32 :=
  let zero_cell := replicate (Z.to_nat (depth img)) f32_zero in
  let after_width := target_width - offset_width - width img in
  let after_height := target_height - offset_height - height img in
  let pad_row row :=
    replicate (Z.to_nat offset_width) zero_cell ++ row
      ++ replicate (Z.to_nat after_width) zero_cell in
  let zero_row := replicate (Z.to_nat target_width) zero_cell in
  replicate (Z.to_nat offset_height) zero_row ++ (pad_row <$> img)
    ++ replicate (Z.to_nat after_height) zero_row.

(** [tf.image.resize_image_with_crop_or_pad]: a central crop where the
    image is larger than the target and central zero padding where it is
    smaller. *)
Definition resize_image_with_crop_or_pad (img : tensor3 float32)
    (target_height target_width : Z) : tensor3 float32 :=
  let width_diff := target_width - width img in
  let offset_crop_width := Z.max ((- width_diff) / 2) 0 in
  let offset_pad_width := Z.max (width_diff / 2) 0 in
  let height_diff := target_height - height img in
  let offset_crop_height := Z.max ((- height_diff) / 2) 0 in
  let offset_pad_height := Z.max (height_diff / 2) 0 in
  let cropped :=
    crop_to_bounding_box img offset_crop_height offset_crop_width
      (Z.min target_height (height img)) (Z.min target_width (width img)) in
  pad_to_bounding_box cropped offset_pad_height offset_pad_width
    target_height target_width.

(** [tf.random_crop(value, [size0, size1, size2])]: one random offset per
    axis, taken modulo [shape - size + 1]; the op asserts
    [shape >= size]. *)
Definition random_crop (value : tensor3 float32) (size0 size1 size2 : Z)
    : M (tensor3 float32) :=
  if decide (size0 <= height value /\ size1 <= width value /\
             size2 <= depth value)
  then
    r0 ← random_word; r1 ← random_word; r2 ← random_word;
    let offset0 := r0 mod (height value - size0 + 1) in
    let offset1 := r1 mod (width value - size1 + 1) in
    let offset2 := r2 mod (depth value - size2 + 1) in
    mret ((fun row =>
             (fun cell => take (Z.to_nat size2) (drop (Z.to_nat offset2) cell))
               <$> take (Z.to_nat size1) (drop (Z.to_nat offset1) row))
            <$> take (Z.to_nat size0) (drop (Z.to_nat offset0) value))
  else raise (InvalidArgumentError "Need value.shape >= size").

(** A uniform draw from [0, 1) with 24 random bits. *)
Definition random_uniform_unit : M Q :=
  r ← random_word; mret (inject_Z (r mod 2 ^ 24) / inject_Z (2 ^ 24))%Q.

(** [tf.image.random_flip_left_right]: the width axis is reversed when
    the draw is below one half. *)
Definition random_flip_left_right (img : tensor3 float32)
    : M (tensor3 float32) :=
  uniform_random ← random_uniform_unit;
  let mirror_cond :=
    match (uniform_random ?= 1 # 2)%Q with Lt => true | _ => false end in
  mret (if mirror_cond then reverse <$> img else img).

Definition flatten {A} (img : tensor3 A) : list A := mjoin (mjoin img).

(** [s] is a float32 sum of the elements of [xs]: the elements added up
    in some order and with some grouping, where a partial sum may start
    from zero. *)
Inductive sums_to : list float32 -> float32 -> Prop :=
| sums_to_nil : sums_to [] f32_zero
| sums_to_one (x : float32) : sums_to [x] x
| sums_to_app (xs ys : list float32) (s t : float32) :
    sums_to xs s -> sums_to ys t -> sums_to (xs ++ ys) (add s t)
| sums_to_perm (xs ys : list float32) (s : float32) :
    xs ≡ₚ ys -> sums_to xs s -> sums_to ys s.

(** The framework's sum reduction. The order in which it adds the elements
    is the framework's own and depends on the device, so it is not fixed
    here: a reduction is any function that returns a float32 sum of the
    elements. *)
Class Reduction : Type := {
  reduce_sum : list float32 -> float32;
  reduce_sum_order : forall xs, sums_to xs (reduce_sum xs)
}.

(** One reduction: the elements added from the first to the last. *)
Definition left_to_right : Reduction.
Proof.
  refine {| reduce_sum := foldl add f32_zero |}.
  assert (Hfold : forall xs pre acc,
            sums_to pre acc -> sums_to (pre ++ xs) (foldl add acc xs)).
  { induction xs as [|x xs IH]; intros pre acc Hacc.
    - now rewrite app_nil_r.
    - cbn [foldl]. rewrite (cons_middle x pre xs), app_assoc. apply IH.
      apply sums_to_app; [exact Hacc | apply sums_to_one]. }
  intros xs. apply (Hfold xs [] f32_zero). apply sums_to_nil.
Defined.

Definition reduce_mean `{!Reduction} (xs : list float32) : float32 :=
  div (reduce_sum xs) (f32_of_Z (Z.of_nat (length xs))).

(** [tf.image.per_image_standardization]:
    [(x - mean) / max(stddev, 1 / sqrt(num_pixels))], every step in
    float32, the two means over the reduction of the framework. *)
Definition per_image_standardization `{!Reduction} (img : tensor3 float32)
    : tensor3 float32 :=
  let num_pixels := Z.of_nat (length (flatten img)) in
  let image_mean := reduce_mean (flatten img) in
  let variance :=
    subtract (reduce_mean (square <$> flatten img)) (square image_mean) in
  let variance := relu variance in
  let stddev := sqrt variance in
  let min_stddev := rsqrt (f32_of_Z num_pixels) in
  let pixel_value_scale := maximum stddev min_stddev in
  let pixel_value_offset := image_mean in
  map3 (fun x => div (subtract x pixel_value_offset) pixel_value_scale) img.

End tf_image.

(** ** Preprocessing (lines 95-110) *)

Definition preprocess_image `{!tf_image.Reduction} (image : Image)
    (is_training : bool) : M Image :=
  image ←
    (if is_training then
       let image :=
         tf_image.resize_image_with_crop_or_pad image (_HEIGHT + 8) (_WIDTH + 8) in
       image ← tf_image.random_crop image _HEIGHT _WIDTH _NUM_CHANNELS;
       tf_image.random_flip_left_right image
     else mret image);
  mret (tf_image.per_image_standardization image).

(** ** Dataset ops of the framework

    A dataset is the computation that one pass over it runs: it opens
    files and draws random words as it goes and ends with the elements it
    produced. The elements of a stage are produced before the next stage
    consumes them, while the framework pulls them on demand: the two agree
    on a run that ends without an exception, and on a run that fails before
    the framework has delivered its first element. *)

Module tf_data.

Abbreviation Dataset A := (M (list A)) (only parsing).

(** The records of one file. A file whose size is not a multiple of the
    record length is rejected. *)
Definition file_records (record_bytes : Z) (content : list byte)
    : result (list (list byte)) :=
  let size := Z.of_nat (length content) in
  if decide (0 < record_bytes /\ size mod record_bytes = 0)
  then Ok (tf.rows (Z.to_nat record_bytes) (Z.to_nat (size / record_bytes))
             content)
  else Raise (InvalidArgumentError
                "file length is not a multiple of the record length").

(** [tf.data.FixedLengthRecordDataset(filenames, record_bytes)]: the
    records of the files, file after file. *)
Definition FixedLengthRecordDataset (filenames : list string)
    (record_bytes : Z) : Dataset (list byte) :=
  per_file ← mapM (fun name => content ← read_file name;
                               lift (file_records record_bytes content))
                  filenames;
  mret (mjoin per_file).

(** One pass of the shuffle buffer: the buffer is topped up from the
    input, a random slot is emitted, and the last slot takes its place. *)
Fixpoint shuffle_emit {A} (fuel buffer_size : nat) (buffer input : list A)
    : M (list A) :=
  match fuel with
  | O => mret []
  | S fuel' =>
      let room := (buffer_size - length buffer)%nat in
      let buffer := buffer ++ take room input in
      let input := drop room input in
      match last buffer with
      | None => mret []
      | Some back =>
          r ← random_word;
          let index := Z.to_nat (r mod Z.of_nat (length buffer)) in
          let out := default back (buffer !! index) in
          let buffer := take (length buffer - 1) (<[index := back]> buffer) in
          rest ← shuffle_emit fuel' buffer_size buffer input;
          mret (out :: rest)
      end
  end.

(** [dataset.shuffle(buffer_size)]. *)
Definition shuffle {A} (dataset : Dataset A) (buffer_size : Z) : Dataset A :=
  if decide (buffer_size <= 0)
  then raise (InvalidArgumentError "buffer_size must be greater than zero")
  else input ← dataset;
       shuffle_emit (length input) (Z.to_nat buffer_size) [] input.

(** [dataset.map(f)]. *)
Definition map {A B} (dataset : Dataset A) (f : A -> M B) : Dataset B :=
  xs ← dataset; mapM f xs.

(** [dataset.prefetch(buffer_size)]: the same elements. *)
Definition prefetch {A} (dataset : Dataset A) (buffer_size : Z) : Dataset A :=
  dataset.

(** [dataset.repeat(count)] for a count that is not negative: [count]
    passes over the input, each one run afresh. *)
Fixpoint repeat {A} (dataset : Dataset A) (count : nat) : Dataset A :=
  match count with
  | O => mret []
  | S count' =>
      xs ← dataset; rest ← repeat dataset count'; mret (xs ++ rest)
  end.

Fixpoint batches {A} (fuel n : nat) (xs : list A) : list (list A) :=
  match fuel, xs with
  | S fuel', _ :: _ => take n xs :: batches fuel' n (drop n xs)
  | _, _ => []
  end.

(** [dataset.batch(batch_size)]: consecutive elements are stacked,
    [batch_size] at a time; what is left at the end makes a last,
    smaller batch. A batch of pairs is a pair of stacked tensors. *)
Definition batch {A B} (dataset : Dataset (A * B)) (batch_size : Z)
    : Dataset (list A * list B) :=
  if decide (batch_size <= 0)
  then raise (InvalidArgumentError "Batch size must be greater than zero")
  else xs ← dataset;
       mret ((fun b => (b.*1, b.*2))
               <$> batches (length xs) (Z.to_nat batch_size) xs).

End tf_data.

(** ** The input pipeline (lines 45-65 and 113-149) *)

Definition record_dataset (filenames : list string) : tf_data.Dataset (list byte) :=
  let record_bytes := _DEFAULT_IMAGE_SIZE + 1 in
  tf_data.FixedLengthRecordDataset filenames record_bytes.

Definition get_filenames (is_training : bool) (data_dir : string)
    : M (list string) :=
  let data_dir := os.path.join data_dir "cifar-10-batches-bin" in
  found ← os.path.exists_ data_dir;
  if negb found
  then raise (AssertionError
                ("Run cifar10_download_and_extract.py first to download and extract the "
                 +:+ "CIFAR-10 data."))
  else if is_training
  then mret ((fun i => os.path.join data_dir
                         ("data_batch_" +:+ pretty i +:+ ".bin"))
               <$> range 1 (_NUM_DATA_FILES + 1))
  else mret [os.path.join data_dir "test_batch.bin"].

(** The value of [input_fn] is the sequence of [(images, labels)] batches
    that the one-shot iterator delivers, one per [get_next]. *)
Definition input_fn `{!tf_image.Reduction} (is_training : bool)
    (data_dir : string) (batch_size : Z)
    (num_epochs : nat) : M (list (list Image * list Label)) :=
  filenames ← get_filenames is_training data_dir;
  let dataset := record_dataset filenames in
  let dataset :=
    if is_training
    then tf_data.shuffle dataset (_NUM_IMAGES train)
    else dataset in
  let dataset := tf_data.map dataset (fun raw => lift (parse_record raw)) in
  let dataset :=
    tf_data.map dataset
      (fun '(image, label) =>
         image ← preprocess_image image is_training; mret (image, label)) in
  let dataset := tf_data.prefetch dataset (2 * batch_size) in
  let dataset := tf_data.repeat dataset num_epochs in
  let dataset := tf_data.batch dataset batch_size in
  dataset.

(** ** The model's layer policy (lines 155-181) *)

Inductive block_fn_t : Type := building_block | bottleneck_block.

(** The arguments [Cifar10Model.__init__] hands to the base class. *)
Record model_args : Type := ModelArgs {
  resnet_size : Z;
  num_classes : Z;
  num_filters : Z;
  kernel_size : Z;
  first_pool_size : option Z;
  second_pool_size : Z;
  block_fn : block_fn_t;
  layers : list Z;
  stride_sizes : list Z;
  final_size : Z;
  data_format : option string
}.

(** [l * n] on Python lists. *)
Definition list_mul {A} (l : list A) (n : Z) : list A :=
  mjoin (replicate (Z.to_nat n) l).

Definition _get_layers (resnet_size : Z) : result (list Z) :=
  if decide (resnet_size mod 6 ≠ 2)
  then Raise (ValueError "resnet_size must be 6n + 2:" resnet_size)
  else
    let num_blocks := (resnet_size - 2) / 6 in
    Ok (list_mul [num_blocks] 3).

Definition _get_stride_sizes : list Z := [1; 1; 2; 2; 1].

Definition Cifar10Model (resnet_size : Z) (data_format : option string)
    : result model_args :=
  layers ← _get_layers resnet_size;
  mret (ModelArgs resnet_size _NUM_CLASSES 16 3 None 8 building_block
          layers _get_stride_sizes 64 data_format).

(** ** The learning-rate schedule (lines 188-191) *)

Module resnet_shared.

Record schedule : Type := Schedule {
  base_rate : Q;
  boundaries : list Z;
  rates : list Q
}.

(** Modelled from the spec: [resnet_shared.learning_rate_with_decay],
    which [cifar10_model_fn] calls and which is not among the sources
    (the specification's [build_lr_schedule]). Rates are the real numbers
    of the specification, as exact rationals; [ConfigError] is the
    specification's name for a rejected configuration. *)
Definition learning_rate_with_decay (batch_size batch_denom num_images : Z)
    (boundary_epochs : list Z) (decay_rates : list Q) : result schedule :=
  if decide (length decay_rates = S (length boundary_epochs))
  then
    let base_rate :=
      ((1 # 10) * inject_Z batch_size / inject_Z batch_denom)%Q in
    let batches_per_epoch := num_images / batch_size in
    Ok (Schedule base_rate
          ((fun epoch => batches_per_epoch * epoch) <$> boundary_epochs)
          ((fun decay => (base_rate * decay)%Q) <$> decay_rates))
  else Raise (ConfigError "len(decay_rates) != len(boundary_epochs) + 1").

(** Modelled from the spec: the schedule's [lookup], [rates[k]] for [k]
    the number of boundaries that are at most [global_step]. *)
Definition lookup (s : schedule) (global_step : Z) : Q :=
  let k := length (filter (fun b => b <= global_step) (boundaries s)) in
  nth k (rates s) 0%Q.

End resnet_shared.

(** The schedule that [cifar10_model_fn] asks for. *)
Definition learning_rate_fn (params_batch_size : Z)
    : result resnet_shared.schedule :=
  resnet_shared.learning_rate_with_decay params_batch_size 128
    (_NUM_IMAGES train) [100; 150; 200]
    [1%Q; (1 # 10)%Q; (1 # 100)%Q; (1 # 1000)%Q].

(** ** Vocabulary of the properties *)

(** The tensor that [reshape] to [[d0, d1, d2]] followed by
    [transpose [1, 2, 0]] builds from a flat vector. *)
Definition depth_major_to_hwc {A} (d0 d1 d2 : nat) (v : list A)
    : list (list (list A)) :=
  tf.transpose2 d2 <$>
    tf.transpose2 d1 (tf.rows d2 d1 <$> tf.rows (d1 * d2)%nat d0 v).

(** What [parse_record] returns on a buffer of at least 3073 bytes. *)
Definition decoded (raw_record : list byte) : Image * Label :=
  (tf.map3 tf.f32_of_Z
     (depth_major_to_hwc 3 32 32 (take 3072 (drop 1 (tf.decode_raw raw_record)))),
   tf.one_hot (default 0 (uint8 <$> raw_record !! 0%nat)) 10).

(** A vector with [1.0] at index [hot] and [0.0] everywhere else. *)
Definition is_one_hot (v : list tf.float32) (hot : nat) : Prop :=
  v !! hot = Some tf.f32_one /\
  forall i x, v !! i = Some x -> i ≠ hot -> x = tf.f32_zero.

(** A record of 3073 bytes with label byte [label] and every pixel byte
    equal to [fill]. *)
Definition flat_record (label fill : byte) : list byte :=
  label :: replicate 3072 fill.

(** [returns m w Q]: run from [w], [m] ends without an exception, and its
    value and final world satisfy [Q]. *)
Definition returns {A} (m : M A) (w : world) (Q : A -> world -> Prop) : Prop :=
  exists a w', m w = (Ok a, w') /\ Q a w'.

(** Nothing run in [M] changes the file system. *)
Definition same_files (w0 w : world) : Prop :=
  dirs w = dirs w0 /\ files w = files w0.

(** [p] names a directory or a file of the world. *)
Definition path_exists (w : world) (p : string) : Prop :=
  p ∈ dirs w \/ is_Some (files w !! p).

(** What [get_filenames] raises when the data directory is missing. *)
Definition not_downloaded : exn :=
  AssertionError
    "Run cifar10_download_and_extract.py first to download and extract the CIFAR-10 data.".

(** A file of the world, split into its records. *)
Definition file_has_records (w : world) (name : string)
    (records : list (list byte)) : Prop :=
  exists content,
    files w !! name = Some content /\
    tf_data.file_records (_DEFAULT_IMAGE_SIZE + 1) content = Ok records.

(** The dataset that [input_fn] repeats: one pass over the files. *)
Definition one_pass `{!tf_image.Reduction} (is_training : bool)
    (filenames : list string)
    : M (list (Image * Label)) :=
  tf_data.map
    (tf_data.map
       (if is_training
        then tf_data.shuffle (record_dataset filenames) (_NUM_IMAGES train)
        else record_dataset filenames)
       (fun raw => lift (parse_record raw)))
    (fun '(image, label) =>
       image ← preprocess_image image is_training; mret (image, label)).

(** The number of samples in a batch. *)
Definition batch_len (b : list Image * list Label) : nat := length b.1.

(** A world with the data directory and no file in it. *)
Definition data_world : world :=
  World {[ "/tmp/cifar10_data/cifar-10-batches-bin" ]} ∅ (fun n => Z.of_nat n) 0 [].

(** A world without the data directory. *)
Definition bare_world : world := World ∅ ∅ (fun n => Z.of_nat n) 0 [].

(** A world whose evaluation file holds two records. *)
Definition eval_world : world :=
  World {[ "/tmp/cifar10_data/cifar-10-batches-bin" ]}
        {[ "/tmp/cifar10_data/cifar-10-batches-bin/test_batch.bin"
           := flat_record x01 x02 ++ flat_record x03 x04 ]}
        (fun n => Z.of_nat n) 0 [].

(** A world whose five training shards hold one record each. *)
Definition train_world : world :=
  World {[ "/tmp/cifar10_data/cifar-10-batches-bin" ]}
        (list_to_map
           [("/tmp/cifar10_data/cifar-10-batches-bin/data_batch_1.bin",
             flat_record x01 x10);
            ("/tmp/cifar10_data/cifar-10-batches-bin/data_batch_2.bin",
             flat_record x02 x20);
            ("/tmp/cifar10_data/cifar-10-batches-bin/data_batch_3.bin",
             flat_record x03 x30);
            ("/tmp/cifar10_data/cifar-10-batches-bin/data_batch_4.bin",
             flat_record x04 x40);
            ("/tmp/cifar10_data/cifar-10-batches-bin/data_batch_5.bin",
             flat_record x05 x50)])
        (fun n => 7919 * Z.of_nat n) 0 [].

(** ** The head of [cifar10_model_fn] (line 186) *)

(** [tf.reshape(features, [-1, d1, d2, d3])] of a rank-4 tensor: the
    elements are laid out again, row-major, in slabs of [d1 * d2 * d3]; the
    op is rejected when the element count is not a multiple of the slab
    size. *)
Definition reshape_batch {A} (features : list (list (list (list A))))
    (d1 d2 d3 : Z) : result (list (list (list (list A)))) :=
  let flat := mjoin (tf_image.flatten <$> features) in
  let slab := d1 * d2 * d3 in
  if decide (0 < d1 /\ 0 < d2 /\ 0 < d3 /\ Z.of_nat (length flat) mod slab = 0)
  then Ok ((fun v => tf.rows (Z.to_nat d3) (Z.to_nat d2)
                       <$> tf.rows (Z.to_nat (d2 * d3)) (Z.to_nat d1) v)
             <$> tf.rows (Z.to_nat slab)
                   (Z.to_nat (Z.of_nat (length flat) / slab)) flat)
  else Raise (InvalidArgumentError
                "Input to reshape does not match the requested shape").

(** The first statement of [cifar10_model_fn]; the rest of the function
    hands [features] over to [resnet_shared], which is not among the
    sources. *)
Definition model_fn_features (features : list Image) : result (list Image) :=
  reshape_batch features _HEIGHT _WIDTH _NUM_CHANNELS.

(** ** More vocabulary *)

(** The world after [n] more random words were drawn. *)
Definition advance (w : world) (n : nat) : world :=
  World (dirs w) (files w) (draws w) (n + cursor w) (opened w).

(** The world after the files [names] were opened, in order. *)
Definition log_opened (w : world) (names : list string) : world :=
  World (dirs w) (files w) (draws w) (cursor w) (opened w ++ names).

(** The [size0 x size1 x size2] window of [value] at the given offsets. *)
Definition window (value : Image) (offset0 offset1 offset2 size0 size1 size2 : Z)
    : Image :=
  (fun row =>
     (fun cell => take (Z.to_nat size2) (drop (Z.to_nat offset2) cell))
       <$> take (Z.to_nat size1) (drop (Z.to_nat offset1) row))
    <$> take (Z.to_nat size0) (drop (Z.to_nat offset0) value).

(** The sample that the evaluation pipeline makes of a record. *)
Definition eval_sample `{!tf_image.Reduction} (raw : list byte) : Image * Label :=
  (tf_image.per_image_standardization (decoded raw).1, (decoded raw).2).

(** [sample] is what the pipeline can make of the record [raw]: the label
    of the record, with an image that [preprocess_image] returns for the
    image of the record. *)
Definition sample_of `{!tf_image.Reduction} (is_training : bool) (raw : list byte)
    (sample : Image * Label) : Prop :=
  sample.2 = (decoded raw).2 /\
  tf.has_shape sample.1 32 32 3 /\
  exists w w', preprocess_image (decoded raw).1 is_training w = (Ok sample.1, w').

(** The samples of all batches, in order. *)
Definition unbatch (batches : list (list Image * list Label))
    : list Image * list Label :=
  (mjoin (batches.*1), mjoin (batches.*2)).

(** A world without files whose random stream is [stream]. *)
Definition stream_world (stream : nat -> Z) : world := World ∅ ∅ stream 0 [].

(** The batches that [dataset.batch(batch_size)] makes of [samples]. *)
Definition batched (batch_size : Z) (samples : list (Image * Label))
    : list (list Image * list Label) :=
  (fun b => (b.*1, b.*2))
    <$> tf_data.batches (length samples) (Z.to_nat batch_size) samples.

(** One pass: the records in some order (their own order at evaluation
    time), each made into a sample. *)
Definition pass_of `{!tf_image.Reduction} (is_training : bool)
    (records : list (list byte))
    (pass : list (Image * Label)) : Prop :=
  exists shuffled,
    shuffled ≡ₚ records /\
    (is_training = false -> shuffled = records) /\
    Forall2 (sample_of is_training) shuffled pass.


(** * Properties *)

(** The properties hold whatever the reduction of the framework is. *)
Section properties.
Context {framework_reduction : tf_image.Reduction}.

(** ** Layer policy *)

Lemma list_mul_singleton_3 {A} (x : A) : list_mul [x] 3 = [x; x; x].
Proof. reflexivity. Qed.

(** C2. For every [resnet_size] with [resnet_size mod 6 = 2] the model is
    configured with [(resnet_size - 2) / 6] blocks in each of exactly three
    stages, the division is exact, and the strides are [1, 1, 2, 2, 1]. *)
Theorem get_layers_valid (resnet_size : Z) (data_format : option string) :
  resnet_size mod 6 = 2 ->
  let num_blocks := (resnet_size - 2) / 6 in
  6 * num_blocks + 2 = resnet_size /\
  _get_layers resnet_size = Ok [num_blocks; num_blocks; num_blocks] /\
  _get_stride_sizes = [1; 1; 2; 2; 1] /\
  exists args,
    Cifar10Model resnet_size data_format = Ok args /\
    layers args = [num_blocks; num_blocks; num_blocks] /\
    length (layers args) = 3%nat /\
    stride_sizes args = [1; 1; 2; 2; 1].
Proof.
  intros Hmod num_blocks.
  assert (Hlayers : _get_layers resnet_size
                    = Ok [num_blocks; num_blocks; num_blocks]).
  { unfold _get_layers. destruct (decide (resnet_size mod 6 ≠ 2)) as [Hne|_].
    - contradiction.
    - now rewrite list_mul_singleton_3. }
  split.
  { subst num_blocks.
    pose proof (Z.div_mod (resnet_size - 2) 6 ltac:(lia)) as Hdm.
    assert ((resnet_size - 2) mod 6 = 0).
    { rewrite Zminus_mod, Hmod. reflexivity. }
    lia. }
  split; [exact Hlayers|]. split; [reflexivity|].
  eexists. split.
  - unfold Cifar10Model. rewrite Hlayers. reflexivity.
  - repeat split.
Qed.

Lemma get_layers_valid_witness :
  _get_layers 32 = Ok [5; 5; 5] /\ _get_stride_sizes = [1; 1; 2; 2; 1].
Proof.
  destruct (get_layers_valid 32 None) as (_ & Hl & Hs & _);
    [reflexivity|].
  split; [exact Hl | exact Hs].
Defined.

(** C5. For every [resnet_size] with [resnet_size mod 6 <> 2] the layer
    policy raises and no model configuration is produced. *)
Theorem get_layers_invalid (resnet_size : Z) (data_format : option string) :
  resnet_size mod 6 ≠ 2 ->
  _get_layers resnet_size
    = Raise (ValueError "resnet_size must be 6n + 2:" resnet_size) /\
  Cifar10Model resnet_size data_format
    = Raise (ValueError "resnet_size must be 6n + 2:" resnet_size) /\
  (forall args, Cifar10Model resnet_size data_format ≠ Ok args).
Proof.
  intros Hmod.
  assert (Hl : _get_layers resnet_size
               = Raise (ValueError "resnet_size must be 6n + 2:" resnet_size)).
  { unfold _get_layers. destruct (decide (resnet_size mod 6 ≠ 2)); [reflexivity|].
    contradiction. }
  assert (Hm : Cifar10Model resnet_size data_format
               = Raise (ValueError "resnet_size must be 6n + 2:" resnet_size)).
  { unfold Cifar10Model. rewrite Hl. reflexivity. }
  split; [exact Hl|]. split; [exact Hm|].
  intros args Hargs. rewrite Hm in Hargs. discriminate.
Qed.

Lemma get_layers_invalid_witness :
  is_ok (_get_layers 10) = false /\ is_ok (Cifar10Model 15 None) = false.
Proof.
  split.
  - destruct (get_layers_invalid 10 None) as (H & _); [discriminate|].
    rewrite H. reflexivity.
  - destruct (get_layers_invalid 15 None) as (_ & H & _); [discriminate|].
    rewrite H. reflexivity.
Defined.

(** ** Learning-rate schedule *)

(** C4. With a batch size of 128 the schedule of [cifar10_model_fn] has base
    rate 0.1, boundaries 39000, 58500 and 78000 (390 steps per epoch),
    rates 0.1, 0.01, 0.001 and 0.0001, and [lookup] returns the rate whose
    index is the number of boundaries not above the step: 0.1 at step 0,
    0.01 at step 39000, 0.0001 at step 100000. *)
Theorem learning_rate_schedule_128 :
  _NUM_IMAGES train / 128 = 390 /\
  exists s,
    learning_rate_fn 128 = Ok s /\
    (resnet_shared.base_rate s == 1 # 10)%Q /\
    resnet_shared.boundaries s = [390 * 100; 390 * 150; 390 * 200] /\
    resnet_shared.boundaries s = [39000; 58500; 78000] /\
    Forall2 Qeq (resnet_shared.rates s)
      [(1 # 10)%Q; (1 # 100)%Q; (1 # 1000)%Q; (1 # 10000)%Q] /\
    Forall2 (fun rate decay => (rate == resnet_shared.base_rate s * decay)%Q)
      (resnet_shared.rates s) [1%Q; (1 # 10)%Q; (1 # 100)%Q; (1 # 1000)%Q] /\
    (forall global_step,
       resnet_shared.lookup s global_step
       = nth (length (filter (fun b => b <= global_step) [39000; 58500; 78000]))
             (resnet_shared.rates s) 0%Q) /\
    (forall global_step, global_step < 39000 ->
       (resnet_shared.lookup s global_step == 1 # 10)%Q) /\
    (forall global_step, 39000 <= global_step < 58500 ->
       (resnet_shared.lookup s global_step == 1 # 100)%Q) /\
    (forall global_step, 58500 <= global_step < 78000 ->
       (resnet_shared.lookup s global_step == 1 # 1000)%Q) /\
    (forall global_step, 78000 <= global_step ->
       (resnet_shared.lookup s global_step == 1 # 10000)%Q) /\
    (resnet_shared.lookup s 0 == 1 # 10)%Q /\
    (resnet_shared.lookup s 39000 == 1 # 100)%Q /\
    (resnet_shared.lookup s 100000 == 1 # 10000)%Q.
Proof.
  split; [reflexivity|].
  eexists. split; [reflexivity|].
  assert (Hlookup : forall global_step,
    resnet_shared.lookup
      (resnet_shared.Schedule ((1 # 10) * inject_Z 128 / inject_Z 128)
         [39000; 58500; 78000]
         [((1 # 10) * inject_Z 128 / inject_Z 128 * 1)%Q;
          ((1 # 10) * inject_Z 128 / inject_Z 128 * (1 # 10))%Q;
          ((1 # 10) * inject_Z 128 / inject_Z 128 * (1 # 100))%Q;
          ((1 # 10) * inject_Z 128 / inject_Z 128 * (1 # 1000))%Q])
      global_step
    = nth (length (filter (fun b => b <= global_step) [39000; 58500; 78000]))
        [((1 # 10) * inject_Z 128 / inject_Z 128 * 1)%Q;
         ((1 # 10) * inject_Z 128 / inject_Z 128 * (1 # 10))%Q;
         ((1 # 10) * inject_Z 128 / inject_Z 128 * (1 # 100))%Q;
         ((1 # 10) * inject_Z 128 / inject_Z 128 * (1 # 1000))%Q] 0%Q)
    by reflexivity.
  assert (Hcases : forall global_step,
    length (filter (fun b => b <= global_step) [39000; 58500; 78000])
    = if decide (global_step < 39000) then 0%nat
      else if decide (global_step < 58500) then 1%nat
      else if decide (global_step < 78000) then 2%nat else 3%nat).
  { intros g. rewrite !filter_cons, filter_nil.
    repeat case_decide; simpl; try reflexivity; lia. }
  split; [reflexivity|]. split; [reflexivity|]. split; [reflexivity|].
  split; [repeat constructor; reflexivity|].
  split; [repeat constructor; reflexivity|].
  split; [exact Hlookup|].
  repeat split; try intros g Hg; rewrite Hlookup, Hcases;
    repeat case_decide; try lia; reflexivity.
Qed.

(** ** Reshape and transpose, by index *)

Section tensor_index.
Context {A : Type}.
Implicit Types (l v : list A) (m : list (list A)).
Local Open Scope nat_scope.

Lemma rows_length n k l : length (tf.rows n k l) = k.
Proof. revert l. induction k as [|k IH]; intros l; simpl; [|rewrite IH]; reflexivity. Qed.

Lemma rows_lookup n k l i :
  i < k -> tf.rows n k l !! i = Some (take n (drop (i * n) l)).
Proof.
  revert l i. induction k as [|k IH]; intros l i Hi; [lia|].
  destruct i as [|i]; simpl.
  - reflexivity.
  - rewrite IH by lia. rewrite drop_drop. reflexivity.
Qed.

Lemma rows_row_length n k l :
  length l = k * n -> Forall (fun row => length row = n) (tf.rows n k l).
Proof.
  intros Hl. apply Forall_lookup. intros i row Hrow.
  assert (i < k) as Hi.
  { apply lookup_lt_Some in Hrow. rewrite rows_length in Hrow. exact Hrow. }
  rewrite rows_lookup in Hrow by exact Hi. injection Hrow as <-.
  rewrite length_take, length_drop. nia.
Qed.

Lemma rows_cell n k l i j :
  i < k -> j < n ->
  (row ← tf.rows n k l !! i; row !! j) = l !! (i * n + j).
Proof.
  intros Hi Hj. rewrite rows_lookup by exact Hi. simpl.
  rewrite lookup_take_lt by exact Hj. apply lookup_drop.
Qed.

Lemma transpose2_length ncols m :
  Forall (fun row => length row = ncols) m ->
  length (tf.transpose2 ncols m) = ncols.
Proof.
  induction 1 as [|row rest Hrow _ IH]; simpl.
  - apply length_replicate.
  - rewrite length_zip_with. lia.
Qed.

Lemma transpose2_lookup ncols m j :
  Forall (fun row => length row = ncols) m -> j < ncols ->
  exists col,
    tf.transpose2 ncols m !! j = Some col /\
    length col = length m /\
    forall i, col !! i = (row ← m !! i; row !! j).
Proof.
  intros Hm Hj. induction Hm as [|row rest Hrow _ IH]; simpl.
  - exists []. rewrite lookup_replicate_2 by exact Hj.
    repeat split. 
  - destruct IH as (col & Hcol & Hlen & Hget).
    destruct (lookup_lt_is_Some_2 row j) as [x Hx]; [lia|].
    exists (x :: col). rewrite lookup_zip_with, Hx, Hcol. simpl.
    split; [reflexivity|]. split; [now rewrite Hlen|].
    intros [|i]; simpl; [now rewrite Hx | apply Hget].
Qed.

End tensor_index.

Lemma at3_map3 {A B} (f : A -> B) (t : list (list (list A))) i j k :
  tf.at3 (tf.map3 f t) i j k = f <$> tf.at3 t i j k.
Proof.
  unfold tf.at3, tf.map3. rewrite list_lookup_fmap.
  destruct (t !! i) as [row|]; simpl; [|reflexivity].
  rewrite list_lookup_fmap. destruct (row !! j) as [cell|]; simpl; [|reflexivity].
  apply list_lookup_fmap.
Qed.

Section reshape_transpose.
Context {A : Type}.
Local Open Scope nat_scope.

Lemma depth_major_rows_shape d0 d1 d2 (v : list A) :
  length v = d0 * (d1 * d2) ->
  Forall (fun plane => length plane = d1 /\
                       Forall (fun row => length row = d2) plane)
         (tf.rows d2 d1 <$> tf.rows (d1 * d2) d0 v).
Proof.
  intros Hv. apply Forall_fmap.
  eapply Forall_impl; [apply rows_row_length; exact Hv|].
  intros plane Hplane. simpl in *. split; [apply rows_length|].
  apply rows_row_length. exact Hplane.
Qed.

Lemma depth_major_to_hwc_at d0 d1 d2 (v : list A) i j k :
  length v = d0 * (d1 * d2) -> i < d0 -> j < d1 -> k < d2 ->
  tf.at3 (depth_major_to_hwc d0 d1 d2 v) j k i
  = v !! (i * (d1 * d2) + j * d2 + k).
Proof.
  intros Hv Hi Hj Hk. unfold tf.at3, depth_major_to_hwc.
  pose proof (depth_major_rows_shape d0 d1 d2 v Hv) as Hshape.
  set (t := tf.rows d2 d1 <$> tf.rows (d1 * d2) d0 v) in *.
  assert (Ht : length t = d0).
  { subst t. rewrite length_fmap. apply rows_length. }
  destruct (transpose2_lookup d1 t j) as (slab & Hslab & Hslablen & Hslabget);
    [eapply Forall_impl; [exact Hshape|]; intros ? [? _]; assumption
    |exact Hj|].
  rewrite list_lookup_fmap, Hslab. simpl.
  assert (Hslabrows : Forall (fun row => length row = d2) slab).
  { apply Forall_lookup. intros c row Hrow. rewrite Hslabget in Hrow.
    destruct (t !! c) as [plane|] eqn:Hplane; simpl in Hrow; [|discriminate].
    pose proof (Forall_lookup_1 _ _ _ _ Hshape Hplane) as [_ Hrows].
    exact (Forall_lookup_1 _ _ _ _ Hrows Hrow). }
  destruct (transpose2_lookup d2 slab k Hslabrows Hk)
    as (cell & Hcell & _ & Hcellget).
  rewrite Hcell. simpl. rewrite Hcellget, Hslabget.
  subst t. rewrite list_lookup_fmap, rows_lookup by exact Hi. simpl.
  rewrite rows_cell by assumption.
  rewrite lookup_take_lt by nia. rewrite lookup_drop. f_equal. lia.
Qed.

Lemma depth_major_to_hwc_shape d0 d1 d2 (v : list A) :
  length v = d0 * (d1 * d2) ->
  tf.has_shape (depth_major_to_hwc d0 d1 d2 v) d1 d2 d0.
Proof.
  intros Hv. unfold tf.has_shape, depth_major_to_hwc.
  pose proof (depth_major_rows_shape d0 d1 d2 v Hv) as Hshape.
  set (t := tf.rows d2 d1 <$> tf.rows (d1 * d2) d0 v) in *.
  assert (Ht : length t = d0).
  { subst t. rewrite length_fmap. apply rows_length. }
  assert (Hplanes : Forall (fun plane => length plane = d1) t).
  { eapply Forall_impl; [exact Hshape|]. intros ? [? _]. assumption. }
  split; [rewrite length_fmap; apply transpose2_length; exact Hplanes|].
  apply Forall_fmap, Forall_lookup. intros j slab Hslab. simpl.
  assert (j < d1) as Hj.
  { apply lookup_lt_Some in Hslab.
    rewrite transpose2_length in Hslab by exact Hplanes. exact Hslab. }
  destruct (transpose2_lookup d1 t j Hplanes Hj) as (slab' & Hs & Hlen & Hget).
  rewrite Hs in Hslab. injection Hslab as <-.
  assert (Hslabrows : Forall (fun row => length row = d2) slab').
  { apply Forall_lookup. intros c row Hrow. rewrite Hget in Hrow.
    destruct (t !! c) as [plane|] eqn:Hplane; simpl in Hrow; [|discriminate].
    pose proof (Forall_lookup_1 _ _ _ _ Hshape Hplane) as [_ Hrows].
    exact (Forall_lookup_1 _ _ _ _ Hrows Hrow). }
  split; [apply transpose2_length; exact Hslabrows|].
  apply Forall_lookup. intros k cell Hcell.
  assert (k < d2) as Hk.
  { apply lookup_lt_Some in Hcell.
    rewrite transpose2_length in Hcell by exact Hslabrows. exact Hcell. }
  destruct (transpose2_lookup d2 slab' k Hslabrows Hk) as (cell' & Hc & Hclen & _).
  rewrite Hc in Hcell. injection Hcell as <-. lia.
Qed.

End reshape_transpose.

(** ** The record decoder *)

Lemma uint8_range b : 0 <= uint8 b < 256.
Proof. destruct b; vm_compute; split; congruence. Qed.

Lemma uint8_inj b1 b2 : uint8 b1 = uint8 b2 -> b1 = b2.
Proof.
  unfold uint8. intros H. apply N2Z.inj in H.
  pose proof (Byte.of_to_N b1) as H1. pose proof (Byte.of_to_N b2) as H2.
  rewrite H in H1. congruence.
Qed.

(** The cast of a uint8 to float32 is exact. *)
Lemma f32_of_uint8_exact b :
  tf.f32_value (tf.f32_of_Z (uint8 b)) = Some (inject_Z (uint8 b)).
Proof. destruct b; vm_compute; reflexivity. Qed.

Lemma f32_of_uint8_inj b1 b2 :
  tf.f32_of_Z (uint8 b1) = tf.f32_of_Z (uint8 b2) -> b1 = b2.
Proof.
  intros H. apply uint8_inj.
  pose proof (f32_of_uint8_exact b1) as H1. rewrite H, f32_of_uint8_exact in H1.
  injection H1 as H1. congruence.
Qed.

Lemma one_hot_length indices depth :
  length (tf.one_hot indices depth) = Z.to_nat depth.
Proof. unfold tf.one_hot. now rewrite length_fmap, length_seq. Qed.

Lemma one_hot_lookup indices depth (i : nat) :
  (i < Z.to_nat depth)%nat ->
  tf.one_hot indices depth !! i
  = Some (if decide (Z.of_nat i = indices) then tf.f32_one else tf.f32_zero).
Proof.
  intros Hi. unfold tf.one_hot.
  now rewrite list_lookup_fmap, lookup_seq_lt by exact Hi.
Qed.

Lemma one_hot_in_range indices depth :
  0 <= indices < depth ->
  is_one_hot (tf.one_hot indices depth) (Z.to_nat indices).
Proof.
  intros Hr. split.
  - rewrite one_hot_lookup by lia. case_decide; [reflexivity|lia].
  - intros i x Hx Hne.
    assert (i < Z.to_nat depth)%nat as Hi.
    { apply lookup_lt_Some in Hx. now rewrite one_hot_length in Hx. }
    rewrite one_hot_lookup in Hx by exact Hi. case_decide; [lia|congruence].
Qed.

Lemma one_hot_out_of_range indices depth :
  depth <= indices ->
  tf.one_hot indices depth = replicate (Z.to_nat depth) tf.f32_zero.
Proof.
  intros Hr. apply list_eq. intros i.
  destruct (decide (i < Z.to_nat depth)%nat) as [Hi|Hi].
  - rewrite one_hot_lookup, lookup_replicate_2 by exact Hi.
    case_decide; [lia|reflexivity].
  - rewrite !lookup_ge_None_2; [reflexivity| |].
    + rewrite length_replicate. lia.
    + rewrite one_hot_length. lia.
Qed.

Lemma parse_record_long raw_record :
  (3073 <= length raw_record)%nat ->
  parse_record raw_record = Ok (decoded raw_record).
Proof.
  intros Hlen. destruct raw_record as [|byte0 rest]; [simpl in Hlen; lia|].
  unfold parse_record, decoded. cbv zeta.
  change (tf.decode_raw (byte0 :: rest)) with (uint8 byte0 :: tf.decode_raw rest).
  change (tf.index (uint8 byte0 :: tf.decode_raw rest) 0) with (Ok (uint8 byte0)).
  change (tf.slice (uint8 byte0 :: tf.decode_raw rest) 1 (1 + _DEFAULT_IMAGE_SIZE))
    with (take 3072 (tf.decode_raw rest)).
  change (drop 1 (uint8 byte0 :: tf.decode_raw rest)) with (tf.decode_raw rest).
  unfold tf.reshape.
  destruct (decide _) as [_|Hno].
  - reflexivity.
  - exfalso. apply Hno. rewrite length_take. unfold tf.decode_raw.
    rewrite length_fmap. simpl in Hlen.
    change (_NUM_CHANNELS * _HEIGHT * _WIDTH) with 3072.
    unfold _NUM_CHANNELS, _HEIGHT, _WIDTH. lia.
Qed.

Lemma parse_record_short raw_record :
  (length raw_record < 3073)%nat ->
  exists msg, parse_record raw_record = Raise (InvalidArgumentError msg).
Proof.
  intros Hlen. destruct raw_record as [|byte0 rest].
  - eexists. reflexivity.
  - unfold parse_record. cbv zeta.
    change (tf.decode_raw (byte0 :: rest)) with (uint8 byte0 :: tf.decode_raw rest).
    change (tf.index (uint8 byte0 :: tf.decode_raw rest) 0) with (Ok (uint8 byte0)).
    change (tf.slice (uint8 byte0 :: tf.decode_raw rest) 1 (1 + _DEFAULT_IMAGE_SIZE))
      with (take 3072 (tf.decode_raw rest)).
    unfold tf.reshape.
    destruct (decide _) as [(Hyes & _)|_].
    + exfalso. rewrite length_take in Hyes. unfold tf.decode_raw in Hyes.
      rewrite length_fmap in Hyes. simpl in Hlen.
      change (_NUM_CHANNELS * _HEIGHT * _WIDTH) with 3072 in Hyes. lia.
    + eexists. reflexivity.
Qed.

Lemma has_shape_map3 {A B} (f : A -> B) (t : list (list (list A))) d0 d1 d2 :
  tf.has_shape t d0 d1 d2 -> tf.has_shape (tf.map3 f t) d0 d1 d2.
Proof.
  unfold tf.has_shape, tf.map3. intros [Hlen Hrows].
  split; [now rewrite length_fmap|].
  apply Forall_fmap. eapply Forall_impl; [exact Hrows|].
  intros row [Hrow Hcells]. simpl. split; [now rewrite length_fmap|].
  apply Forall_fmap. eapply Forall_impl; [exact Hcells|].
  intros cell Hcell. simpl. now rewrite length_fmap.
Qed.

(** The pixel of a decoded record, as the byte of the record it comes
    from. *)
Lemma decoded_pixel raw_record (row col channel : nat) :
  length raw_record = 3073%nat ->
  (row < 32)%nat -> (col < 32)%nat -> (channel < 3)%nat ->
  tf.at3 (decoded raw_record).1 row col channel
  = (fun b => tf.f32_of_Z (uint8 b))
      <$> raw_record !! (1 + channel * 32 * 32 + row * 32 + col)%nat.
Proof.
  intros Hlen Hrow Hcol Hchannel. unfold decoded. cbn [fst].
  rewrite at3_map3, depth_major_to_hwc_at; try assumption.
  - rewrite lookup_take_lt by lia. rewrite lookup_drop.
    unfold tf.decode_raw. rewrite list_lookup_fmap.
    replace (1 + (channel * (32 * 32) + row * 32 + col))%nat
      with (1 + channel * 32 * 32 + row * 32 + col)%nat by lia.
    destruct (raw_record !! _); reflexivity.
  - rewrite length_take, length_drop. unfold tf.decode_raw.
    rewrite length_fmap, Hlen. reflexivity.
Qed.

Lemma f32_one_not_zero : tf.f32_one ≠ tf.f32_zero.
Proof. discriminate. Qed.

(** Two records with labels below ten that decode to the same sample are
    the same record. *)
Lemma decoded_inj raw1 raw2 byte1 byte2 :
  length raw1 = 3073%nat -> length raw2 = 3073%nat ->
  raw1 !! 0%nat = Some byte1 -> raw2 !! 0%nat = Some byte2 ->
  uint8 byte1 < _NUM_CLASSES -> uint8 byte2 < _NUM_CLASSES ->
  decoded raw1 = decoded raw2 -> raw1 = raw2.
Proof.
  intros Hlen1 Hlen2 Hb1 Hb2 Hr1 Hr2 Heq. apply list_eq. intros i.
  destruct i as [|k].
  - rewrite Hb1, Hb2. f_equal. apply uint8_inj.
    assert (Hlabel : (decoded raw1).2 = (decoded raw2).2) by now rewrite Heq.
    unfold decoded in Hlabel. cbn [snd] in Hlabel.
    rewrite Hb1, Hb2 in Hlabel. cbn [fmap option_fmap option_map default] in Hlabel.
    pose proof (uint8_range byte1) as [Hlo1 _].
    pose proof (f_equal (fun v => v !! Z.to_nat (uint8 byte1)) Hlabel) as Hat.
    cbv beta in Hat. unfold _NUM_CLASSES in *.
    assert (Hi : (Z.to_nat (uint8 byte1) < Z.to_nat 10)%nat) by (clear - Hlo1 Hr1; lia).
    rewrite !one_hot_lookup in Hat by exact Hi. unfold id in Hat.
    rewrite decide_True in Hat by lia.
    case_decide as Hd; [lia|].
    injection Hat as Hat. now apply f32_one_not_zero in Hat.
  - destruct (decide (k < 3072)%nat) as [Hk|Hk].
    + set (channel := (k / 1024)%nat). set (row := ((k mod 1024) / 32)%nat).
      set (col := (k mod 32)%nat).
      assert (Hchannel : (channel < 3)%nat).
      { subst channel. apply Nat.Div0.div_lt_upper_bound. lia. }
      assert (Hrow : (row < 32)%nat).
      { subst row. apply Nat.Div0.div_lt_upper_bound.
        pose proof (Nat.mod_upper_bound k 1024). lia. }
      assert (Hcol : (col < 32)%nat).
      { subst col. apply Nat.mod_upper_bound. lia. }
      assert (Hk' : S k = (1 + channel * 32 * 32 + row * 32 + col)%nat).
      { subst channel row col.
        pose proof (Nat.div_mod_eq k 1024) as H1.
        pose proof (Nat.div_mod_eq (k mod 1024) 32) as H2.
        assert (Hmm : ((k mod 1024) mod 32 = k mod 32)%nat).
        { change 1024%nat with (32 * 32)%nat.
          rewrite Nat.Div0.mod_mul_r.
          rewrite Nat.mul_comm, Nat.Div0.mod_add.
          apply Nat.Div0.mod_mod. }
        lia. }
      pose proof (decoded_pixel raw1 row col channel Hlen1 Hrow Hcol Hchannel) as P1.
      pose proof (decoded_pixel raw2 row col channel Hlen2 Hrow Hcol Hchannel) as P2.
      rewrite Heq, P2, <- Hk' in P1.
      destruct (lookup_lt_is_Some_2 raw1 (S k)) as [x1 Hx1]; [lia|].
      destruct (lookup_lt_is_Some_2 raw2 (S k)) as [x2 Hx2]; [lia|].
      rewrite Hx1, Hx2 in *. cbn in P1. injection P1 as P1.
      f_equal. symmetry. now apply f32_of_uint8_inj.
    + rewrite !lookup_ge_None_2 by lia. reflexivity.
Qed.

(** C1 (amended). Every record of exactly 3073 bytes is decoded: the label
    vector has length 10 and its entry [i] is 1.0 exactly when [i] is byte
    0, so it is the one-hot vector of byte 0 whenever byte 0 is below 10;
    the image has shape 32 x 32 x 3 and its pixel at [row][col][channel] is
    the byte at offset [1 + channel*32*32 + row*32 + col], cast to float32
    with its value unchanged; and a record whose label byte is below 10 is
    recovered from its sample, byte for byte. *)
Theorem parse_record_layout (raw_record : list byte) :
  length raw_record = 3073%nat ->
  exists byte0 image label,
    raw_record !! 0%nat = Some byte0 /\
    parse_record raw_record = Ok (image, label) /\
    length label = 10%nat /\
    (forall i : nat, (i < 10)%nat ->
       label !! i = Some (if decide (Z.of_nat i = uint8 byte0)
                          then tf.f32_one else tf.f32_zero)) /\
    (uint8 byte0 < _NUM_CLASSES -> is_one_hot label (Z.to_nat (uint8 byte0))) /\
    tf.has_shape image 32 32 3 /\
    (forall row col channel : nat,
       (row < 32)%nat -> (col < 32)%nat -> (channel < 3)%nat ->
       exists b,
         raw_record !! (1 + channel * 32 * 32 + row * 32 + col)%nat = Some b /\
         tf.at3 image row col channel = Some (tf.f32_of_Z (uint8 b)) /\
         tf.f32_value (tf.f32_of_Z (uint8 b)) = Some (inject_Z (uint8 b))) /\
    (forall other other0,
       length other = 3073%nat -> other !! 0%nat = Some other0 ->
       uint8 other0 < _NUM_CLASSES -> uint8 byte0 < _NUM_CLASSES ->
       parse_record other = Ok (image, label) -> other = raw_record).
Proof.
  intros Hlen.
  destruct (lookup_lt_is_Some_2 raw_record 0) as [byte0 Hbyte0];
    [rewrite Hlen; apply Nat.lt_0_succ|].
  pose proof (parse_record_long raw_record) as Hparse.
  rewrite Hlen in Hparse. specialize (Hparse (Nat.le_refl _)).
  exists byte0, (decoded raw_record).1, (decoded raw_record).2.
  split; [exact Hbyte0|].
  split; [now rewrite Hparse; destruct (decoded raw_record)|].
  assert (Hlabel : (decoded raw_record).2 = tf.one_hot (uint8 byte0) 10).
  { unfold decoded. cbn [snd]. now rewrite Hbyte0. }
  rewrite Hlabel.
  split; [apply one_hot_length|].
  split; [intros i Hi; now apply one_hot_lookup|].
  split.
  { intros Hr. apply one_hot_in_range. pose proof (uint8_range byte0).
    unfold _NUM_CLASSES in Hr. clear - Hr H. lia. }
  split.
  { unfold decoded. cbn [fst]. apply has_shape_map3.
    apply (depth_major_to_hwc_shape 3 32 32).
    rewrite length_take, length_drop. unfold tf.decode_raw.
    rewrite length_fmap, Hlen. reflexivity. }
  split.
  { intros row col channel Hrow Hcol Hchannel.
    destruct (lookup_lt_is_Some_2 raw_record
                (1 + channel * 32 * 32 + row * 32 + col)) as [b Hb].
    { rewrite Hlen. clear - Hrow Hcol Hchannel. lia. }
    exists b. split; [exact Hb|].
    rewrite decoded_pixel by assumption. rewrite Hb.
    split; [reflexivity | apply f32_of_uint8_exact]. }
  intros other other0 Hlen' Hother0 Hr' Hr Hparse'.
  pose proof (parse_record_long other) as Hlong.
  rewrite Hlen' in Hlong. specialize (Hlong (Nat.le_refl _)).
  rewrite Hlong, <- Hlabel, <- surjective_pairing in Hparse'.
  apply (decoded_inj other raw_record other0 byte0); try assumption.
  congruence.
Qed.

Lemma parse_record_layout_witness :
  exists image label,
    parse_record (flat_record x03 x07) = Ok (image, label) /\
    is_one_hot label 3 /\
    tf.at3 image 31 31 2 = Some (tf.f32_of_Z 7).
Proof.
  destruct (parse_record_layout (flat_record x03 x07))
    as (byte0 & image & label & Hb & Hp & _ & _ & Hhot & _ & Hpix & _);
    [reflexivity|].
  injection Hb as <-.
  exists image, label. split; [exact Hp|]. split; [now apply Hhot|].
  destruct (Hpix 31 31 2)%nat as (b & Hb & Hat & _); [lia..|].
  vm_compute in Hb. injection Hb as <-. exact Hat.
Defined.

(** C1, as stated, fails on a record whose label byte is 10: the record is
    decoded, and its label vector has no entry equal to 1.0. *)
Lemma parse_record_label_not_one_hot :
  length (flat_record x0a x00) = 3073%nat /\
  flat_record x0a x00 !! 0%nat = Some x0a /\
  exists image label,
    parse_record (flat_record x0a x00) = Ok (image, label) /\
    ~ is_one_hot label (Z.to_nat (uint8 x0a)) /\
    (forall hot, ~ is_one_hot label hot).
Proof.
  split; [reflexivity|]. split; [reflexivity|].
  exists (decoded (flat_record x0a x00)).1, (decoded (flat_record x0a x00)).2.
  split.
  { rewrite parse_record_long; [now destruct (decoded _)|].
    apply Nat.leb_le. reflexivity. }
  assert (Hnone : forall hot, ~ is_one_hot (decoded (flat_record x0a x00)).2 hot).
  { intros hot [Hhot _].
    change ((decoded (flat_record x0a x00)).2) with (tf.one_hot 10 10) in Hhot.
    rewrite one_hot_out_of_range in Hhot by reflexivity.
    apply lookup_replicate in Hhot as [Hhot _]. discriminate. }
  split; [apply Hnone | exact Hnone].
Qed.

(** C3 (amended). [parse_record] fails, with the framework's
    [InvalidArgumentError] and without a sample, exactly on the buffers
    shorter than 3073 bytes; a buffer of 3073 bytes or more is decoded from
    its first 3073 bytes, whatever its label byte. *)
Theorem parse_record_fails_iff_short (raw_record : list byte) :
  ((length raw_record < 3073)%nat ->
     (exists msg, parse_record raw_record = Raise (InvalidArgumentError msg)) /\
     (forall sample, parse_record raw_record ≠ Ok sample)) /\
  ((3073 <= length raw_record)%nat ->
     parse_record raw_record = Ok (decoded raw_record) /\
     decoded raw_record = decoded (take 3073 raw_record)).
Proof.
  split.
  - intros Hshort. destruct (parse_record_short _ Hshort) as [msg Hmsg].
    split; [now exists msg|]. intros sample. rewrite Hmsg. discriminate.
  - intros Hlong. split; [now apply parse_record_long|].
    unfold decoded. f_equal.
    + do 2 f_equal. unfold tf.decode_raw.
      rewrite <- !fmap_drop, <- !fmap_take. f_equal.
      rewrite (take_drop_commute (take 3073 raw_record)).
      rewrite (take_drop_commute raw_record).
      now rewrite take_take.
    + destruct raw_record; [simpl in Hlong; clear - Hlong; lia|reflexivity].
Qed.

Lemma parse_record_fails_iff_short_witness :
  (exists msg, parse_record (replicate 3072 x00)
               = Raise (InvalidArgumentError msg)) /\
  parse_record (flat_record xff x00 ++ [x01])
  = Ok (decoded (flat_record xff x00 ++ [x01])).
Proof.
  split.
  - apply (parse_record_fails_iff_short (replicate 3072 x00)).
    rewrite length_replicate. apply Nat.lt_succ_diag_r.
  - apply (parse_record_fails_iff_short (flat_record xff x00 ++ [x01])).
    apply Nat.leb_le. reflexivity.
Defined.

(** C3, as stated, fails twice: a buffer of 3074 bytes is decoded, and so
    is a record of 3073 bytes whose label byte is 255. *)
Lemma parse_record_accepts_long_and_bad_label :
  (length (flat_record x00 x00 ++ [x01]) = 3074%nat /\
   is_ok (parse_record (flat_record x00 x00 ++ [x01])) = true) /\
  (length (flat_record xff x00) = 3073%nat /\
   flat_record xff x00 !! 0%nat = Some xff /\
   _NUM_CLASSES <= uint8 xff /\
   is_ok (parse_record (flat_record xff x00)) = true).
Proof.
  repeat split; try (vm_compute; congruence);
    (rewrite parse_record_long; [reflexivity | apply Nat.leb_le; reflexivity]).
Qed.

(** C9. A record of 3073 bytes whose label byte is 10 or more is decoded
    without an error, and its label is the all-zero vector of length 10:
    no entry is hot. *)
Theorem parse_record_label_out_of_range (raw_record : list byte) (byte0 : byte) :
  length raw_record = 3073%nat ->
  raw_record !! 0%nat = Some byte0 ->
  _NUM_CLASSES <= uint8 byte0 ->
  exists image label,
    parse_record raw_record = Ok (image, label) /\
    label = replicate 10 tf.f32_zero /\
    length label = 10%nat /\
    (forall i, label !! i ≠ Some tf.f32_one).
Proof.
  intros Hlen Hbyte0 Hr.
  exists (decoded raw_record).1, (decoded raw_record).2.
  split.
  { rewrite parse_record_long; [now destruct (decoded _)|].
    rewrite Hlen. apply Nat.le_refl. }
  assert (Hlabel : (decoded raw_record).2 = replicate 10 tf.f32_zero).
  { unfold decoded. cbn [snd]. rewrite Hbyte0.
    now rewrite one_hot_out_of_range by exact Hr. }
  rewrite Hlabel. split; [reflexivity|]. split; [reflexivity|].
  intros i Hi. apply lookup_replicate in Hi as [Hi _]. discriminate.
Qed.

Lemma parse_record_label_out_of_range_witness :
  exists image,
    parse_record (flat_record xff x00) = Ok (image, replicate 10 tf.f32_zero).
Proof.
  destruct (parse_record_label_out_of_range (flat_record xff x00) xff)
    as (image & label & Hp & -> & _); [reflexivity | reflexivity | |].
  - vm_compute. congruence.
  - exists image. exact Hp.
Defined.

(** ** Reasoning about runs in [M] *)

Lemma returns_ret {A} (a : A) w (Q : A -> world -> Prop) :
  Q a w -> returns (mret a) w Q.
Proof. intros HQ. exists a, w. split; [reflexivity | exact HQ]. Qed.

Lemma returns_bind {A B} (m : M A) (k : A -> M B) w (Q : B -> world -> Prop) :
  returns m w (fun a w1 => returns (k a) w1 Q) -> returns (m ≫= k) w Q.
Proof.
  intros (a & w1 & Hm & b & w2 & Hk & HQ). exists b, w2. split; [|exact HQ].
  unfold mbind, M_bind. rewrite Hm. exact Hk.
Qed.

Lemma returns_mono {A} (m : M A) w (Q Q' : A -> world -> Prop) :
  returns m w Q -> (forall a w', Q a w' -> Q' a w') -> returns m w Q'.
Proof. intros (a & w' & Hm & HQ) Himp. exists a, w'. auto. Qed.

Lemma returns_lift {A} (r : result A) a w (Q : A -> world -> Prop) :
  r = Ok a -> Q a w -> returns (lift r) w Q.
Proof. intros -> HQ. exists a, w. split; [reflexivity | exact HQ]. Qed.

Lemma returns_mapM {A B} (f : A -> M B) (I : world -> Prop)
    (R : A -> B -> Prop) (xs : list A) w :
  Forall (fun x => forall w1, I w1 -> returns (f x) w1 (fun y w2 => R x y /\ I w2)) xs ->
  I w ->
  returns (mapM f xs) w (fun ys w' => Forall2 R xs ys /\ I w').
Proof.
  intros Hxs. revert w. induction Hxs as [|x xs Hx _ IH]; intros w HI.
  - apply returns_ret. split; [constructor | exact HI].
  - simpl. apply returns_bind.
    eapply returns_mono; [apply Hx; exact HI|].
    intros y w1 [HR HI1]. cbv beta. apply returns_bind.
    eapply returns_mono; [apply IH; exact HI1|].
    intros ys w2 [HRs HI2]. cbv beta. apply returns_ret.
    split; [constructor; assumption | exact HI2].
Qed.

(** Inversion of a run that ended without an exception. *)
Lemma bind_Ok {A B} (m : M A) (k : A -> M B) w b w' :
  (m ≫= k) w = (Ok b, w') ->
  exists a w1, m w = (Ok a, w1) /\ k a w1 = (Ok b, w').
Proof.
  unfold mbind, M_bind. destruct (m w) as [[a|e] w1]; intros H.
  - exists a, w1. split; [reflexivity | exact H].
  - discriminate.
Qed.

Lemma mret_Ok {A} (a b : A) w w' :
  (mret a : M A) w = (Ok b, w') -> a = b /\ w = w'.
Proof. unfold mret, M_ret. intros H. injection H as -> ->. split; reflexivity. Qed.

Lemma mapM_Ok {A B} (f : A -> M B) (R : A -> B -> Prop) (xs : list A) :
  (forall x w1 y w2, f x w1 = (Ok y, w2) -> R x y) ->
  forall w ys w', mapM f xs w = (Ok ys, w') -> Forall2 R xs ys.
Proof.
  intros Hf. induction xs as [|x xs IH]; intros w ys w' Hrun; simpl in Hrun.
  - apply mret_Ok in Hrun as [<- _]. constructor.
  - apply bind_Ok in Hrun as (y & w1 & Hy & Hrun).
    apply bind_Ok in Hrun as (ys' & w2 & Hys & Hrun).
    apply mret_Ok in Hrun as [<- _].
    constructor; [eapply Hf; exact Hy | eapply IH; exact Hys].
Qed.

(** ** The source files *)

Lemma exists_true w p : path_exists w p -> os.path.exists_ p w = (Ok true, w).
Proof.
  intros [Hd|Hf]; unfold os.path.exists_.
  - now rewrite (bool_decide_eq_true_2 _ Hd).
  - rewrite (bool_decide_eq_true_2 _ Hf). now rewrite orb_true_r.
Qed.

Lemma exists_false w p : ~ path_exists w p -> os.path.exists_ p w = (Ok false, w).
Proof.
  intros Hno. unfold os.path.exists_.
  rewrite !bool_decide_eq_false_2; [reflexivity| |];
    intros H; apply Hno; [right | left]; exact H.
Qed.

(** C6. With the data directory in place, [get_filenames] answers the five
    training shards [data_batch_1.bin] to [data_batch_5.bin] when training
    and the single file [test_batch.bin] otherwise; without it,
    [get_filenames] and therefore [input_fn] raise before any file is
    opened and before any random word is drawn. *)
Theorem get_filenames_cases (w : world) (data_dir : string) :
  let dir := os.path.join data_dir "cifar-10-batches-bin" in
  (path_exists w dir ->
     get_filenames true data_dir w
     = (Ok [os.path.join dir "data_batch_1.bin";
            os.path.join dir "data_batch_2.bin";
            os.path.join dir "data_batch_3.bin";
            os.path.join dir "data_batch_4.bin";
            os.path.join dir "data_batch_5.bin"], w) /\
     get_filenames false data_dir w
     = (Ok [os.path.join dir "test_batch.bin"], w)) /\
  (~ path_exists w dir ->
     forall is_training batch_size num_epochs,
       get_filenames is_training data_dir w = (Raise not_downloaded, w) /\
       input_fn is_training data_dir batch_size num_epochs w
       = (Raise not_downloaded, w)).
Proof.
  intros dir. split.
  - intros Hdir. unfold get_filenames. fold dir.
    unfold mbind, M_bind. rewrite (exists_true _ _ Hdir). split; reflexivity.
  - intros Hdir is_training batch_size num_epochs.
    assert (Hget : get_filenames is_training data_dir w = (Raise not_downloaded, w)).
    { unfold get_filenames. fold dir.
      unfold mbind, M_bind. rewrite (exists_false _ _ Hdir). reflexivity. }
    split; [exact Hget|].
    unfold input_fn, mbind at 1, M_bind at 1. rewrite Hget. reflexivity.
Qed.


(** ** Preprocessing at evaluation time *)





(** ** The records handed to the decoder *)

Lemma take_last_swap {A} (buffer : list A) (back : A) (index : nat) :
  last buffer = Some back -> (index < length buffer)%nat ->
  default back (buffer !! index)
    :: take (length buffer - 1) (<[index := back]> buffer) ≡ₚ buffer.
Proof.
  intros Hlast Hindex. apply last_Some in Hlast as [front ->].
  rewrite length_app in *. simpl in *.
  replace (length front + 1 - 1)%nat with (length front) by lia.
  destruct (decide (index = length front)) as [->|Hne].
  - rewrite list_insert_id.
    + rewrite take_app_length.
      rewrite lookup_app_r, Nat.sub_diag by lia. simpl.
      now rewrite Permutation_cons_append.
    + rewrite lookup_app_r, Nat.sub_diag by lia. reflexivity.
  - assert (index < length front)%nat as Hlt by lia.
    rewrite insert_app_l by exact Hlt.
    rewrite take_app_length' by now rewrite length_insert.
    rewrite lookup_app_l by exact Hlt.
    destruct (lookup_lt_is_Some_2 front index Hlt) as [x Hx].
    rewrite Hx. simpl.
    rewrite insert_take_drop by exact Hlt.
    rewrite <- (take_drop_middle front index x Hx) at 3.
    rewrite <- !app_assoc. simpl.
    rewrite Permutation_middle. apply Permutation_app_head.
    rewrite (Permutation_cons_append (drop (S index) front) back).
    reflexivity.
Qed.

Lemma shuffle_emit_returns {A} (fuel buffer_size : nat) (buffer input : list A) w :
  (0 < buffer_size)%nat ->
  (length buffer + length input <= fuel)%nat ->
  returns (tf_data.shuffle_emit fuel buffer_size buffer input) w
    (fun out w' => out ≡ₚ buffer ++ input /\ same_files w w' /\
                   opened w' = opened w).
Proof.
  intros Hsize. revert buffer input w.
  induction fuel as [|fuel IH]; intros buffer input w Hfuel.
  - destruct buffer, input; simpl in Hfuel; try lia.
    apply returns_ret. split; [reflexivity | repeat split].
  - simpl.
    set (room := (buffer_size - length buffer)%nat).
    assert (Hsplit : buffer ++ input
                     = (buffer ++ take room input) ++ drop room input).
    { now rewrite <- app_assoc, take_drop. }
    destruct (last (buffer ++ take room input)) as [back|] eqn:Hlast.
    + apply returns_bind. eexists _, _. split; [reflexivity|]. cbv beta.
      set (full := buffer ++ take room input) in *.
      set (index := Z.to_nat (draws w (cursor w) mod Z.of_nat (length full))).
      assert (0 < length full)%nat as Hpos.
      { apply last_Some in Hlast as [front ->]. rewrite length_app. simpl. lia. }
      assert (index < length full)%nat as Hindex.
      { subst index.
        pose proof (Z.mod_pos_bound (draws w (cursor w)) (Z.of_nat (length full))).
        lia. }
      apply returns_bind.
      eapply returns_mono.
      { apply IH. rewrite length_take, length_insert.
        assert (length full + length (drop room input)
                = length buffer + length input)%nat as Hlen.
        { rewrite <- !length_app. now rewrite Hsplit. }
        lia. }
      intros rest w' (Hperm & Hfiles & Hopened). cbv beta.
      apply returns_ret. split; [|split; [exact Hfiles | exact Hopened]].
      rewrite Hperm, Hsplit. fold full.
      rewrite app_comm_cons. apply Permutation_app_tail.
      now apply take_last_swap.
    + apply last_None in Hlast. apply app_eq_nil in Hlast as [-> Htake].
      apply take_nil_inv in Htake as [Hroom| ->].
      * subst room. simpl in Hroom. lia.
      * apply returns_ret. split; [reflexivity | repeat split].
Qed.

Lemma file_records_length record_bytes content records :
  tf_data.file_records record_bytes content = Ok records ->
  Forall (fun raw => Z.of_nat (length raw) = record_bytes) records /\
  Z.of_nat (length records) * record_bytes = Z.of_nat (length content).
Proof.
  unfold tf_data.file_records.
  destruct (decide _) as [[Hpos Hmod]|_]; [|discriminate].
  intros H. injection H as <-.
  set (size := Z.of_nat (length content)) in *.
  assert (Hsize : size = record_bytes * (size / record_bytes)).
  { pose proof (Z.div_mod size record_bytes). lia. }
  assert (0 <= size / record_bytes) by (apply Z.div_pos; lia).
  split.
  - eapply Forall_impl; [apply rows_row_length|].
    + subst size. nia.
    + intros raw Hraw. simpl in Hraw. lia.
  - rewrite rows_length. subst size. nia.
Qed.

Lemma read_file_same_files name w content w' :
  read_file name w = (Ok content, w') ->
  files w !! name = Some content /\ same_files w w'.
Proof.
  unfold read_file. destruct (files w !! name); intros H; [|discriminate].
  injection H as -> <-. repeat split.
Qed.

Lemma lift_Ok {A} (r : result A) w a w' :
  lift r w = (Ok a, w') -> r = Ok a /\ w = w'.
Proof. unfold lift. intros H. injection H as -> ->. split; reflexivity. Qed.

Lemma record_dataset_lengths filenames w records w' :
  record_dataset filenames w = (Ok records, w') ->
  Forall (fun raw => length raw = 3073%nat) records.
Proof.
  unfold record_dataset, tf_data.FixedLengthRecordDataset. cbv zeta.
  intros Hrun. apply bind_Ok in Hrun as (per_file & w1 & Hmap & Hret).
  apply mret_Ok in Hret as [<- _]. apply Forall_join.
  eapply (Forall2_Forall_r _ (fun recs => Forall (fun raw => length raw = 3073%nat) recs)).
  - eapply (mapM_Ok _ (fun _ recs => Forall (fun raw => length raw = 3073%nat) recs));
      [|exact Hmap].
    intros name wa recs wb Hone.
    apply bind_Ok in Hone as (content & wc & _ & Hrecs).
    apply lift_Ok in Hrecs as [Hrecs _].
    apply file_records_length in Hrecs as [Hall _].
    eapply Forall_impl; [exact Hall|]. intros raw Hraw. simpl in Hraw.
    change (_DEFAULT_IMAGE_SIZE + 1) with 3073 in Hraw. clear - Hraw. lia.
  - apply Forall_forall. auto.
Qed.

(** C10. The record length of [record_dataset], [_DEFAULT_IMAGE_SIZE + 1],
    is the record length of [parse_record],
    [label_bytes + _DEFAULT_IMAGE_SIZE], both 3073; every buffer that the
    pipeline hands to [parse_record], shuffled or not, has that length and
    is decoded. *)
Theorem record_bytes_agree (is_training : bool) (filenames : list string)
    (w w' : world) (records : list (list byte)) :
  (_DEFAULT_IMAGE_SIZE + 1 = 1 + _DEFAULT_IMAGE_SIZE /\
   _DEFAULT_IMAGE_SIZE + 1 = 1 + 32 * 32 * 3 /\
   1 + 32 * 32 * 3 = 3073) /\
  ((if is_training
    then tf_data.shuffle (record_dataset filenames) (_NUM_IMAGES train)
    else record_dataset filenames) w = (Ok records, w') ->
   Forall (fun raw => Z.of_nat (length raw) = 1 + _DEFAULT_IMAGE_SIZE /\
                      parse_record raw = Ok (decoded raw)) records).
Proof.
  split; [repeat split|]. intros Hrun.
  assert (Hlen : Forall (fun raw => length raw = 3073%nat) records).
  { destruct is_training.
    - unfold tf_data.shuffle in Hrun.
      destruct (decide _) as [Hno|_]; [exact (False_rect _ (Hno eq_refl))|].
      apply bind_Ok in Hrun as (input & w1 & Hinput & Hemit).
      apply record_dataset_lengths in Hinput.
      destruct (shuffle_emit_returns (length input)
                  (Z.to_nat (_NUM_IMAGES train)) [] input w1)
        as (out & w2 & Hout & Hperm & _);
        [change (_NUM_IMAGES train) with 50000; clear; lia | reflexivity |].
      rewrite Hemit in Hout. injection Hout as <- <-.
      now rewrite Hperm.
    - eapply record_dataset_lengths. exact Hrun. }
  eapply Forall_impl; [exact Hlen|]. intros raw Hraw. simpl in Hraw. split.
  - rewrite Hraw. reflexivity.
  - apply parse_record_long. rewrite Hraw. apply Nat.le_refl.
Qed.

Lemma record_bytes_agree_witness :
  Forall (fun raw => Z.of_nat (length raw) = 1 + _DEFAULT_IMAGE_SIZE /\
                     parse_record raw = Ok (decoded raw))
         [flat_record x01 x02; flat_record x03 x04].
Proof.
  eapply (record_bytes_agree false
            ["/tmp/cifar10_data/cifar-10-batches-bin/test_batch.bin"]
            eval_world).
  vm_compute. reflexivity.
Defined.

(** ** Batching *)

Section batches.
Context {A : Type}.
Local Open Scope nat_scope.

Lemma batches_nil fuel n : tf_data.batches fuel n (@nil A) = [].
Proof. destruct fuel; reflexivity. Qed.

(** [q] full batches, then the [r] elements that are left. *)
Lemma batches_full_then_last (n q r : nat) (xs : list A) fuel :
  0 < r < n -> length xs = q * n + r -> length xs <= fuel ->
  exists fulls final,
    tf_data.batches fuel n xs = fulls ++ [final] /\
    length fulls = q /\
    Forall (fun b => length b = n) fulls /\
    length final = r /\
    mjoin fulls ++ final = xs.
Proof.
  intros Hr. revert xs fuel. induction q as [|q IH]; intros xs fuel Hlen Hfuel.
  - destruct fuel as [|fuel]; [lia|]. destruct xs as [|x xs]; [simpl in Hlen; lia|].
    exists [], (x :: xs). simpl.
    rewrite take_ge, drop_ge by (simpl in *; lia).
    rewrite batches_nil.
    split_and!; [reflexivity | reflexivity | apply Forall_nil_2
                | simpl in *; lia | reflexivity].
  - destruct fuel as [|fuel]; [lia|]. destruct xs as [|x xs]; [simpl in Hlen; lia|].
    destruct (IH (drop n (x :: xs)) fuel) as (fulls & final & Hb & Hq & Hall & Hfin & Hjoin).
    { rewrite length_drop. lia. }
    { rewrite length_drop. simpl in *. lia. }
    exists (take n (x :: xs) :: fulls), final.
    change (tf_data.batches (S fuel) n (x :: xs))
      with (take n (x :: xs) :: tf_data.batches fuel n (drop n (x :: xs))).
    rewrite Hb. split; [reflexivity|]. split; [simpl; lia|].
    split; [constructor; [rewrite length_take; lia | exact Hall]|].
    split; [exact Hfin|].
    simpl mjoin. rewrite <- app_assoc, Hjoin. apply take_drop.
Qed.

(** Only full batches when the count is a multiple of the size. *)
Lemma batches_all_full (n q : nat) (xs : list A) fuel :
  0 < n -> length xs = q * n -> length xs <= fuel ->
  length (tf_data.batches fuel n xs) = q /\
  Forall (fun b => length b = n) (tf_data.batches fuel n xs) /\
  mjoin (tf_data.batches fuel n xs) = xs.
Proof.
  intros Hn. revert xs fuel. induction q as [|q IH]; intros xs fuel Hlen Hfuel.
  - destruct xs; [|simpl in Hlen; lia]. rewrite batches_nil.
    split_and!; [reflexivity | apply Forall_nil_2 | reflexivity].
  - destruct fuel as [|fuel]; [lia|]. destruct xs as [|x xs]; [simpl in Hlen; lia|].
    change (tf_data.batches (S fuel) n (x :: xs))
      with (take n (x :: xs) :: tf_data.batches fuel n (drop n (x :: xs))).
    destruct (IH (drop n (x :: xs)) fuel) as (Hq & Hall & Hjoin).
    { rewrite length_drop. lia. }
    { rewrite length_drop. simpl in *. lia. }
    split; [simpl; lia|].
    split; [constructor; [rewrite length_take; lia | exact Hall]|].
    simpl mjoin. rewrite Hjoin. apply take_drop.
Qed.

End batches.

(** ** One pass of the pipeline *)

Lemma same_files_refl w : same_files w w.
Proof. split; reflexivity. Qed.

Lemma same_files_trans w1 w2 w3 :
  same_files w1 w2 -> same_files w2 w3 -> same_files w1 w3.
Proof. intros [? ?] [? ?]. split; congruence. Qed.

Lemma random_word_returns w :
  returns random_word w (fun _ w' => same_files w w').
Proof. eexists _, _. split; [reflexivity | split; reflexivity]. Qed.

Lemma image_dims (image : Image) :
  tf.has_shape image 32 32 3 ->
  tf_image.height image = 32 /\ tf_image.width image = 32 /\
  tf_image.depth image = 3.
Proof.
  intros [Hlen Hrows]. destruct image as [|row rest]; [discriminate Hlen|].
  apply Forall_cons in Hrows as [[Hrow Hcells] _].
  destruct row as [|cell row]; [discriminate Hrow|].
  apply Forall_cons in Hcells as [Hcell _].
  unfold tf_image.height, tf_image.width, tf_image.depth.
  rewrite Hlen, Hrow, Hcell. repeat split.
Qed.

Lemma crop_whole (image : Image) :
  tf.has_shape image 32 32 3 ->
  tf_image.crop_to_bounding_box image 0 0 32 32 = image.
Proof.
  intros [Hlen Hrows]. unfold tf_image.crop_to_bounding_box.
  change (Z.to_nat 0) with 0%nat. change (Z.to_nat 32) with 32%nat.
  rewrite drop_0, take_ge by (rewrite Hlen; apply Nat.le_refl).
  rewrite <- (list_fmap_id image) at 2. apply Forall_fmap_ext.
  eapply Forall_impl; [exact Hrows|]. intros row [Hrow _]. simpl.
  rewrite drop_0. apply take_ge. rewrite Hrow. apply Nat.le_refl.
Qed.

Lemma padded_dims (image : Image) :
  tf.has_shape image 32 32 3 ->
  let padded :=
    tf_image.resize_image_with_crop_or_pad image (_HEIGHT + 8) (_WIDTH + 8) in
  tf_image.height padded = 40 /\ tf_image.width padded = 40 /\
  tf_image.depth padded = 3.
Proof.
  intros Hshape. destruct (image_dims image Hshape) as (Hh & Hw & Hd).
  cbv zeta. unfold tf_image.resize_image_with_crop_or_pad. cbv zeta.
  rewrite Hh, Hw.
  change (_HEIGHT + 8) with 40. change (_WIDTH + 8) with 40.
  change (Z.max (- (40 - 32) / 2) 0) with 0.
  change (Z.max ((40 - 32) / 2) 0) with 4.
  change (Z.min 40 32) with 32.
  rewrite (crop_whole image Hshape).
  unfold tf_image.pad_to_bounding_box. cbv zeta. rewrite Hh, Hw, Hd.
  change (Z.to_nat (40 - 4 - 32)) with 4%nat.
  change (Z.to_nat 4) with 4%nat. change (Z.to_nat 3) with 3%nat.
  change (Z.to_nat 40) with 40%nat.
  split.
  - unfold tf_image.height. rewrite !length_app, !length_replicate, length_fmap.
    destruct Hshape as [-> _]. reflexivity.
  - split; reflexivity.
Qed.

(** At training time the padded image is large enough for the crop, so
    preprocessing always ends. *)
Lemma preprocess_image_returns (image : Image) (is_training : bool) w :
  tf.has_shape image 32 32 3 ->
  returns (preprocess_image image is_training) w (fun _ w' => same_files w w').
Proof.
  intros Hshape. unfold preprocess_image. destruct is_training.
  - destruct (padded_dims image Hshape) as (Hh & Hw & Hd). cbv zeta in Hh, Hw, Hd.
    apply returns_bind. cbv zeta. apply returns_bind.
    unfold tf_image.random_crop. rewrite Hh, Hw, Hd.
    destruct (decide _) as [_|Hno].
    + apply returns_bind. eexists _, _. split; [reflexivity|]. cbv beta.
      apply returns_bind. eexists _, _. split; [reflexivity|]. cbv beta.
      apply returns_bind. eexists _, _. split; [reflexivity|]. cbv beta.
      apply returns_ret.
      unfold tf_image.random_flip_left_right, tf_image.random_uniform_unit.
      apply returns_bind. apply returns_bind.
      eexists _, _. split; [reflexivity|]. cbv beta.
      apply returns_ret. apply returns_ret. apply returns_ret.
      split; reflexivity.
    + exfalso. apply Hno. unfold _HEIGHT, _WIDTH, _NUM_CHANNELS. clear. lia.
  - apply returns_bind. apply returns_ret. apply returns_ret.
    apply same_files_refl.
Qed.

Lemma record_dataset_returns w filenames per_file w1 :
  Forall2 (file_has_records w) filenames per_file ->
  same_files w w1 ->
  returns (record_dataset filenames) w1
    (fun records w2 => records = mjoin per_file /\ same_files w w2).
Proof.
  intros Hfiles Hsame. unfold record_dataset, tf_data.FixedLengthRecordDataset.
  cbv zeta. apply returns_bind.
  eapply returns_mono with
    (Q := fun recs w2 => recs = per_file /\ same_files w w2).
  - revert w1 Hsame.
    induction Hfiles as [|name recs names per_file (content & Hget & Hrecs) _ IH];
      intros w1 Hsame.
    + apply returns_ret. split; [reflexivity | exact Hsame].
    + simpl mapM. apply returns_bind. apply returns_bind.
      destruct Hsame as [Hdirs Hfs].
      exists content, (World (dirs w1) (files w1) (draws w1) (cursor w1)
                         (opened w1 ++ [name])).
      split; [unfold read_file; now rewrite Hfs, Hget|]. cbv beta.
      eapply returns_lift; [exact Hrecs|].
      apply returns_bind.
      eapply returns_mono; [apply IH; split; assumption|].
      intros recs' w2 [-> Hsame2]. cbv beta. apply returns_ret.
      split; [reflexivity | exact Hsame2].
  - intros recs w2 [-> Hsame2]. cbv beta. apply returns_ret.
    split; [reflexivity | exact Hsame2].
Qed.

Lemma file_has_records_lengths w filenames per_file :
  Forall2 (file_has_records w) filenames per_file ->
  Forall (fun raw => length raw = 3073%nat) (mjoin per_file).
Proof.
  intros Hfiles. apply Forall_join.
  eapply Forall2_Forall_r; [exact Hfiles|]. apply Forall_forall.
  intros name _ recs (content & _ & Hrecs).
  apply file_records_length in Hrecs as [Hall _].
  eapply Forall_impl; [exact Hall|]. intros raw Hraw. simpl in Hraw.
  change (_DEFAULT_IMAGE_SIZE + 1) with 3073 in Hraw. clear - Hraw. lia.
Qed.

Lemma decoded_shape raw_record :
  length raw_record = 3073%nat -> tf.has_shape (decoded raw_record).1 32 32 3.
Proof.
  intros Hlen. unfold decoded. cbn [fst]. apply has_shape_map3.
  apply (depth_major_to_hwc_shape 3 32 32).
  rewrite length_take, length_drop. unfold tf.decode_raw.
  rewrite length_fmap, Hlen. reflexivity.
Qed.

Lemma input_fn_unfold is_training data_dir batch_size num_epochs :
  input_fn is_training data_dir batch_size num_epochs
  = (filenames ← get_filenames is_training data_dir;
     tf_data.batch (tf_data.repeat (one_pass is_training filenames) num_epochs)
                   batch_size).
Proof. reflexivity. Qed.

Lemma raw_stage_returns (is_training : bool) w filenames per_file w1 :
  Forall2 (file_has_records w) filenames per_file ->
  same_files w w1 ->
  returns (if is_training
           then tf_data.shuffle (record_dataset filenames) (_NUM_IMAGES train)
           else record_dataset filenames) w1
    (fun records w2 => records ≡ₚ mjoin per_file /\ same_files w w2).
Proof.
  intros Hfiles Hsame. destruct is_training.
  - unfold tf_data.shuffle.
    destruct (decide _) as [Hno|_]; [exact (False_rect _ (Hno eq_refl))|].
    apply returns_bind.
    eapply returns_mono; [apply (record_dataset_returns w); eassumption|].
    intros input w2 [-> Hsame2]. cbv beta.
    eapply returns_mono.
    + apply shuffle_emit_returns; [|reflexivity].
      change (_NUM_IMAGES train) with 50000. clear. lia.
    + intros out w3 (Hperm & Hsame3 & _). cbv beta.
      split; [exact Hperm | eapply same_files_trans; eassumption].
  - eapply returns_mono; [apply (record_dataset_returns w); eassumption|].
    intros records w2 [-> Hsame2]. split; [reflexivity | exact Hsame2].
Qed.

Lemma one_pass_returns (is_training : bool) w filenames per_file w1 :
  Forall2 (file_has_records w) filenames per_file ->
  same_files w w1 ->
  returns (one_pass is_training filenames) w1
    (fun samples w2 => length samples = length (mjoin per_file) /\
                       same_files w w2).
Proof.
  intros Hfiles Hsame. unfold one_pass, tf_data.map.
  pose proof (file_has_records_lengths w filenames per_file Hfiles) as Hlens.
  apply returns_bind. apply returns_bind.
  eapply returns_mono; [apply (raw_stage_returns is_training w); eassumption|].
  intros records w2 [Hperm Hsame2]. cbv beta.
  assert (Hcount : length records = length (mjoin per_file)) by now rewrite Hperm.
  rewrite <- Hperm in Hlens.
  eapply returns_mono.
  { apply (returns_mapM _ (same_files w) (fun raw sample => sample = decoded raw)).
    - eapply Forall_impl; [exact Hlens|]. intros raw Hraw wa Hwa. simpl in Hraw.
      eapply returns_lift.
      + apply parse_record_long. rewrite Hraw. apply Nat.le_refl.
      + split; [reflexivity | exact Hwa].
    - exact Hsame2. }
  intros decoded_samples w3 [Hdecoded Hsame3]. cbv beta.
  eapply returns_mono.
  { apply (returns_mapM _ (same_files w) (fun _ _ => True)).
    - eapply Forall2_Forall_r; [exact Hdecoded|].
      eapply Forall_impl; [exact Hlens|].
      intros raw Hraw sample -> wa Hwa. simpl in Hraw.
      pose proof (decoded_shape raw Hraw) as Hshape.
      destruct (decoded raw) as [image label]. cbn [fst] in Hshape.
      apply returns_bind.
      eapply returns_mono; [apply preprocess_image_returns; exact Hshape|].
      intros image' wb Hwb. cbv beta. apply returns_ret.
      split; [exact I | eapply same_files_trans; eassumption].
    - exact Hsame3. }
  intros samples w4 [Hsamples Hsame4]. cbv beta. split; [|exact Hsame4].
  apply Forall2_length in Hsamples, Hdecoded. congruence.
Qed.

Lemma repeat_returns {A} (dataset : M (list A)) (I : world -> Prop) (n : nat)
    (count : nat) w :
  (forall w1, I w1 -> returns dataset w1 (fun xs w2 => length xs = n /\ I w2)) ->
  I w ->
  returns (tf_data.repeat dataset count) w
    (fun xs w' => length xs = (count * n)%nat /\ I w').
Proof.
  intros Hpass. revert w. induction count as [|count IH]; intros w HI.
  - apply returns_ret. split; [reflexivity | exact HI].
  - simpl tf_data.repeat. apply returns_bind.
    eapply returns_mono; [apply Hpass; exact HI|].
    intros xs w1 [Hxs HI1]. cbv beta. apply returns_bind.
    eapply returns_mono; [apply IH; exact HI1|].
    intros rest w2 [Hrest HI2]. cbv beta. apply returns_ret.
    split; [|exact HI2]. rewrite length_app, Hxs, Hrest. reflexivity.
Qed.

(** C7. When the files are in place and the number of samples that the
    pipeline produces, [num_epochs] passes over the records, is not a
    multiple of [batch_size], [input_fn] delivers [total / batch_size]
    batches of exactly [batch_size] samples followed by one last batch
    with the [total mod batch_size] samples that are left: nothing is
    dropped. *)
Theorem input_fn_keeps_partial_batch (is_training : bool) (data_dir : string)
    (batch_size : Z) (num_epochs : nat) (w : world)
    (filenames : list string) (per_file : list (list (list byte))) :
  get_filenames is_training data_dir w = (Ok filenames, w) ->
  Forall2 (file_has_records w) filenames per_file ->
  0 < batch_size ->
  let total := (num_epochs * length (mjoin per_file))%nat in
  (total mod Z.to_nat batch_size ≠ 0)%nat ->
  exists fulls final w',
    input_fn is_training data_dir batch_size num_epochs w
    = (Ok (fulls ++ [final]), w') /\
    length fulls = (total / Z.to_nat batch_size)%nat /\
    Forall (fun b => batch_len b = Z.to_nat batch_size /\
                     length b.2 = Z.to_nat batch_size) fulls /\
    batch_len final = (total mod Z.to_nat batch_size)%nat /\
    length final.2 = (total mod Z.to_nat batch_size)%nat /\
    (0 < batch_len final < Z.to_nat batch_size)%nat /\
    (sum_list (batch_len <$> fulls) + batch_len final = total)%nat.
Proof.
  intros Hnames Hfiles Hsize total Hrem.
  set (n := Z.to_nat batch_size) in *.
  assert (Hn : (0 < n)%nat) by (subst n; lia).
  rewrite input_fn_unfold.
  assert (Hrun : returns
            (tf_data.batch (tf_data.repeat (one_pass is_training filenames) num_epochs)
                           batch_size) w
            (fun out _ =>
               exists fulls final,
                 out = fulls ++ [final] /\
                 length fulls = (total / n)%nat /\
                 Forall (fun b => batch_len b = n /\ length b.2 = n) fulls /\
                 batch_len final = (total mod n)%nat /\
                 length final.2 = (total mod n)%nat /\
                 (0 < batch_len final < n)%nat /\
                 (sum_list (batch_len <$> fulls) + batch_len final = total)%nat)).
  { unfold tf_data.batch. destruct (decide _) as [Hno|_]; [lia|].
    apply returns_bind.
    eapply returns_mono.
    { apply (repeat_returns _ (same_files w) (length (mjoin per_file))).
      - intros w1 Hw1. now apply (one_pass_returns is_training w filenames per_file).
      - apply same_files_refl. }
    intros samples w1 [Hlen _]. cbv beta. apply returns_ret. fold total in Hlen.
    destruct (batches_full_then_last n (total / n) (total mod n) samples
                (length samples))
      as (fulls & final & Hb & Hq & Hall & Hfin & Hjoin).
    { split; [lia | now apply Nat.mod_upper_bound, Nat.neq_0_lt_0]. }
    { rewrite Hlen. rewrite (Nat.div_mod_eq total n) at 1. lia. }
    { reflexivity. }
    fold n. rewrite Hb, fmap_app. simpl.
    eexists _, _. split; [reflexivity|].
    split; [now rewrite length_fmap|].
    split.
    { apply Forall_fmap. eapply Forall_impl; [exact Hall|].
      intros b Hbn. unfold batch_len. simpl. now rewrite !length_fmap. }
    unfold batch_len at 1 2 3. simpl. rewrite !length_fmap.
    split; [exact Hfin|]. split; [exact Hfin|].
    split; [rewrite Hfin; split; [lia | now apply Nat.mod_upper_bound, Nat.neq_0_lt_0]|].
    rewrite <- Hlen, <- Hjoin, length_app, length_join. f_equal.
    - rewrite <- !list_fmap_compose. f_equal.
      apply Forall_fmap_ext, Forall_forall. intros b _. unfold batch_len. simpl.
      now rewrite length_fmap.
    - unfold batch_len. simpl. now rewrite length_fmap. }
  destruct Hrun as (out & w' & Hout & fulls & final & -> & Hrest).
  exists fulls, final, w'. split; [|exact Hrest].
  unfold mbind, M_bind. rewrite Hnames. exact Hout.
Qed.


(** * Further properties of the driver *)

(** ** Layer policy: what is not checked *)

(** X2. [_get_layers] checks the residue of [resnet_size] and nothing
    else: for an accepted size the three counts add up to
    [(resnet_size - 2) / 2], they are at least 1 exactly from size 8 on,
    size 2 gives no block at all and a negative size a negative count;
    two accepted sizes with the same layers are the same size. *)
Theorem get_layers_range (resnet_size : Z) :
  resnet_size mod 6 = 2 ->
  exists num_blocks,
    _get_layers resnet_size = Ok [num_blocks; num_blocks; num_blocks] /\
    2 * (num_blocks + num_blocks + num_blocks) + 2 = resnet_size /\
    (1 <= num_blocks <-> 8 <= resnet_size) /\
    (resnet_size = 2 -> num_blocks = 0) /\
    (resnet_size < 0 -> num_blocks < 0) /\
    (forall other, other mod 6 = 2 ->
       _get_layers other = _get_layers resnet_size -> other = resnet_size).
Proof.
  intros Hmod.
  assert (Hget : forall size, size mod 6 = 2 ->
            _get_layers size = Ok (replicate 3 ((size - 2) / 6)) /\
            6 * ((size - 2) / 6) + 2 = size).
  { intros size Hsize. split.
    - unfold _get_layers. destruct (decide (size mod 6 ≠ 2)); [contradiction|].
      reflexivity.
    - pose proof (Z.div_mod (size - 2) 6 ltac:(lia)) as Hdm.
      assert ((size - 2) mod 6 = 0) by (rewrite Zminus_mod, Hsize; reflexivity).
      lia. }
  destruct (Hget resnet_size Hmod) as [Hl Hexact].
  exists ((resnet_size - 2) / 6). split; [exact Hl|].
  split; [lia|]. split; [lia|]. split; [lia|]. split; [lia|].
  intros other Hother Heq. destruct (Hget other Hother) as [Hl' Hexact'].
  rewrite Hl, Hl' in Heq. injection Heq as Heq. lia.
Qed.

Lemma get_layers_range_witness :
  _get_layers (-4) = Ok [-1; -1; -1] /\ _get_layers 2 = Ok [0; 0; 0].
Proof.
  split.
  - destruct (get_layers_range (-4)) as (n & Hn & Hsum & _); [reflexivity|].
    assert (n = -1) as -> by lia. exact Hn.
  - destruct (get_layers_range 2) as (n & Hn & _ & _ & H0 & _); [reflexivity|].
    rewrite Hn, (H0 eq_refl). reflexivity.
Defined.

(** ** Decoder: labels out of range collapse *)

(** X9. Two records of 3073 bytes with the same pixel bytes and any two
    label bytes that are both 10 or more decode to the same sample: the
    decoder does not tell such labels apart. *)
Theorem parse_record_collapses_bad_labels (raw1 raw2 : list byte)
    (byte1 byte2 : byte) :
  length raw1 = 3073%nat -> length raw2 = 3073%nat ->
  raw1 !! 0%nat = Some byte1 -> raw2 !! 0%nat = Some byte2 ->
  _NUM_CLASSES <= uint8 byte1 -> _NUM_CLASSES <= uint8 byte2 ->
  drop 1 raw1 = drop 1 raw2 ->
  parse_record raw1 = parse_record raw2 /\
  is_ok (parse_record raw1) = true.
Proof.
  intros Hlen1 Hlen2 Hb1 Hb2 Hr1 Hr2 Hpix.
  rewrite !parse_record_long by (rewrite ?Hlen1, ?Hlen2; apply Nat.le_refl).
  split; [|reflexivity]. f_equal. unfold decoded. f_equal.
  - do 2 f_equal. unfold tf.decode_raw. rewrite <- !fmap_drop. now rewrite Hpix.
  - rewrite Hb1, Hb2. cbn [fmap option_fmap option_map default].
    now rewrite !one_hot_out_of_range by assumption.
Qed.

Lemma parse_record_collapses_bad_labels_witness :
  parse_record (flat_record x0a x07) = parse_record (flat_record xff x07).
Proof.
  apply (parse_record_collapses_bad_labels _ _ x0a xff);
    try reflexivity; vm_compute; congruence.
Defined.

(** ** The source files, by name *)

Lemma append_assoc (a b c : string) : (a +:+ b) +:+ c = a +:+ (b +:+ c).
Proof.
  induction a as [|x a IH]; [reflexivity|].
  change (String x ((a +:+ b) +:+ c) = String x (a +:+ (b +:+ c))).
  now rewrite IH.
Qed.

Lemma ends_with_sep_app (a : string) (c : ascii) (b : string) :
  os.path.ends_with_sep (a +:+ String c b) = os.path.ends_with_sep (String c b).
Proof.
  induction a as [|x a IH]; [reflexivity|].
  change (String x a +:+ String c b) with (String x (a +:+ String c b)).
  destruct (a +:+ String c b) as [|y rest] eqn:Happ.
  - destruct a; discriminate Happ.
  - exact IH.
Qed.

(** A file of the data directory: the directory, a separator, the name. *)
Lemma join_data_dir (data_dir name : string) :
  os.path.starts_with_sep name = false ->
  os.path.join (os.path.join data_dir "cifar-10-batches-bin") name
  = os.path.join data_dir "cifar-10-batches-bin" +:+ "/" +:+ name.
Proof.
  intros Hname.
  assert (Hdir : exists pre,
            os.path.join data_dir "cifar-10-batches-bin"
            = pre +:+ "cifar-10-batches-bin").
  { unfold os.path.join. cbn [os.path.starts_with_sep]. rewrite bool_decide_eq_false_2 by discriminate.
    destruct (_ || _).
    - now exists data_dir.
    - exists (data_dir +:+ "/"). now rewrite append_assoc. }
  destruct Hdir as [pre Hdir]. rewrite Hdir.
  unfold os.path.join at 1. rewrite Hname.
  rewrite ends_with_sep_app. cbn [os.path.ends_with_sep].
  rewrite !bool_decide_eq_false_2; [reflexivity|discriminate|].
  destruct pre; discriminate.
Qed.

(** X1. With the data directory in place, the training files are five
    different files of that directory, [data_batch_1.bin] to
    [data_batch_5.bin], and the evaluation file, [test_batch.bin] of the
    same directory, is none of them. *)
Theorem get_filenames_distinct (w : world) (data_dir : string) :
  let dir := os.path.join data_dir "cifar-10-batches-bin" in
  path_exists w dir ->
  exists training,
    get_filenames true data_dir w = (Ok training, w) /\
    training = (fun name => dir +:+ "/" +:+ name)
                 <$> ["data_batch_1.bin"; "data_batch_2.bin"; "data_batch_3.bin";
                      "data_batch_4.bin"; "data_batch_5.bin"] /\
    Z.of_nat (length training) = _NUM_DATA_FILES /\
    NoDup training /\
    get_filenames false data_dir w = (Ok [dir +:+ "/" +:+ "test_batch.bin"], w) /\
    dir +:+ "/" +:+ "test_batch.bin" ∉ training.
Proof.
  intros dir Hdir. eexists. split.
  { unfold get_filenames. fold dir. unfold mbind, M_bind.
    rewrite (exists_true _ _ Hdir). reflexivity. }
  assert (Hinj : Inj (=) (=) (fun name => dir +:+ "/" +:+ name)).
  { intros a b Hab. apply String.app_inj in Hab. now injection Hab. }
  split.
  { cbn [fmap list_fmap]. subst dir.
    rewrite <- !join_data_dir by reflexivity. reflexivity. }
  split; [reflexivity|].
  assert (Hnames : (fun name => os.path.join dir name)
                     <$> ["data_batch_1.bin"; "data_batch_2.bin"; "data_batch_3.bin";
                          "data_batch_4.bin"; "data_batch_5.bin"]
                   = (fun name => dir +:+ "/" +:+ name)
                     <$> ["data_batch_1.bin"; "data_batch_2.bin"; "data_batch_3.bin";
                          "data_batch_4.bin"; "data_batch_5.bin"]).
  { cbn [fmap list_fmap]. subst dir. now rewrite !join_data_dir by reflexivity. }
  split.
  { change (NoDup ((fun name => os.path.join dir name)
                     <$> ["data_batch_1.bin"; "data_batch_2.bin"; "data_batch_3.bin";
                          "data_batch_4.bin"; "data_batch_5.bin"])).
    rewrite Hnames. apply (NoDup_fmap_2 _).
    apply (bool_decide_unpack _). vm_compute. exact I. }
  split.
  { unfold get_filenames. fold dir. unfold mbind, M_bind.
    rewrite (exists_true _ _ Hdir). cbn [negb]. subst dir.
    now rewrite join_data_dir by reflexivity. }
  change (dir +:+ "/" +:+ "test_batch.bin"
          ∉ (fun name => os.path.join dir name)
              <$> ["data_batch_1.bin"; "data_batch_2.bin"; "data_batch_3.bin";
                   "data_batch_4.bin"; "data_batch_5.bin"]).
  rewrite Hnames. intros Hin.
  apply (list_elem_of_fmap_inj_2 (fun name => dir +:+ "/" +:+ name)) in Hin.
  revert Hin. apply (bool_decide_unpack _). vm_compute. exact I.
Qed.

Lemma get_filenames_distinct_witness :
  get_filenames false "/tmp/cifar10_data/" data_world
  = (Ok ["/tmp/cifar10_data/cifar-10-batches-bin/test_batch.bin"], data_world).
Proof.
  destruct (get_filenames_distinct data_world "/tmp/cifar10_data/")
    as (training & _ & _ & _ & _ & Heval & _).
  - left. unfold data_world. cbn [dirs]. apply elem_of_singleton_2. reflexivity.
  - exact Heval.
Defined.

(** ** Preprocessing at training time *)

(** The image after [resize_image_with_crop_or_pad] to 40 x 40: four
    rows and four columns of zero pixels on every side. *)
Lemma resize_padded (image : Image) :
  tf.has_shape image 32 32 3 ->
  tf_image.resize_image_with_crop_or_pad image (_HEIGHT + 8) (_WIDTH + 8)
  = replicate 4 (replicate 40 (replicate 3 tf.f32_zero))
      ++ ((fun row => replicate 4 (replicate 3 tf.f32_zero) ++ row
                        ++ replicate 4 (replicate 3 tf.f32_zero)) <$> image)
      ++ replicate 4 (replicate 40 (replicate 3 tf.f32_zero)).
Proof.
  intros Hshape. destruct (image_dims image Hshape) as (Hh & Hw & Hd).
  unfold tf_image.resize_image_with_crop_or_pad. cbv zeta.
  rewrite Hh, Hw.
  change (_HEIGHT + 8) with 40. change (_WIDTH + 8) with 40.
  change (Z.max (- (40 - 32) / 2) 0) with 0.
  change (Z.max ((40 - 32) / 2) 0) with 4.
  change (Z.min 40 32) with 32.
  rewrite (crop_whole image Hshape).
  unfold tf_image.pad_to_bounding_box. cbv zeta. rewrite Hh, Hw, Hd.
  reflexivity.
Qed.

Lemma padded_shape (image : Image) :
  tf.has_shape image 32 32 3 ->
  tf.has_shape
    (tf_image.resize_image_with_crop_or_pad image (_HEIGHT + 8) (_WIDTH + 8))
    40 40 3.
Proof.
  intros Hshape. rewrite (resize_padded image Hshape).
  destruct Hshape as [Hlen Hrows].
  assert (Hzero : length (replicate 40 (replicate 3 tf.f32_zero)) = 40%nat /\
                  Forall (fun cell : list tf.float32 => length cell = 3%nat)
                         (replicate 40 (replicate 3 tf.f32_zero))).
  { split; [apply length_replicate|]. apply Forall_replicate. reflexivity. }
  split.
  - rewrite !length_app, !length_replicate, length_fmap, Hlen. reflexivity.
  - apply Forall_app. split; [apply Forall_replicate; exact Hzero|].
    apply Forall_app. split; [|apply Forall_replicate; exact Hzero].
    apply Forall_fmap. eapply Forall_impl; [exact Hrows|].
    intros row [Hrow Hcells]. cbv beta delta [compose]. split.
    + rewrite !length_app, !length_replicate, Hrow. reflexivity.
    + apply Forall_app. split; [apply Forall_replicate; reflexivity|].
      apply Forall_app. split; [exact Hcells|].
      apply Forall_replicate. reflexivity.
Qed.

Lemma window_shape (value : Image) (offset0 offset1 : Z) :
  tf.has_shape value 40 40 3 ->
  0 <= offset0 <= 8 -> 0 <= offset1 <= 8 ->
  tf.has_shape (window value offset0 offset1 0 32 32 3) 32 32 3.
Proof.
  intros [Hlen Hrows] H0 H1. unfold window.
  change (Z.to_nat 32) with 32%nat. change (Z.to_nat 3) with 3%nat.
  change (Z.to_nat 0) with 0%nat.
  split.
  - rewrite length_fmap, length_take, length_drop, Hlen. clear - H0. lia.
  - apply Forall_fmap, Forall_take, Forall_drop.
    eapply Forall_impl; [exact Hrows|]. intros row [Hrow Hcells]. cbv beta delta [compose]. split.
    + rewrite length_fmap, length_take, length_drop, Hrow. clear - H1. lia.
    + apply Forall_fmap, Forall_take, Forall_drop.
      eapply Forall_impl; [exact Hcells|]. intros cell Hcell. cbv beta delta [compose].
      rewrite length_take, drop_0, Hcell. reflexivity.
Qed.

(** The window at offset (4, 4) of the padded image is the image. *)
Lemma window_centre (image : Image) :
  tf.has_shape image 32 32 3 ->
  window (tf_image.resize_image_with_crop_or_pad image (_HEIGHT + 8) (_WIDTH + 8))
         4 4 0 32 32 3
  = image.
Proof.
  intros Hshape. rewrite (resize_padded image Hshape).
  destruct Hshape as [Hlen Hrows]. unfold window.
  change (Z.to_nat 32) with 32%nat. change (Z.to_nat 3) with 3%nat.
  change (Z.to_nat 0) with 0%nat. change (Z.to_nat 4) with 4%nat.
  rewrite drop_app_length' by now rewrite length_replicate.
  rewrite take_app_length' by now rewrite length_fmap.
  rewrite <- list_fmap_compose.
  rewrite <- (list_fmap_id image) at 2. apply Forall_fmap_ext.
  eapply Forall_impl; [exact Hrows|]. intros row [Hrow Hcells]. cbv beta delta [compose].
  rewrite drop_app_length' by now rewrite length_replicate.
  rewrite take_app_length' by now rewrite Hrow.
  unfold id at 1. rewrite <- (list_fmap_id row) at 2. apply Forall_fmap_ext.
  eapply Forall_impl; [exact Hcells|]. intros cell Hcell. cbv beta delta [compose].
  rewrite drop_0. unfold id. apply take_ge. rewrite Hcell. apply Nat.le_refl.
Qed.

(** The flip decision, on the random word. *)
Lemma mirror_cond_word (r : Z) :
  match (inject_Z (r mod 2 ^ 24) / inject_Z (2 ^ 24) ?= 1 # 2)%Q with
  | Lt => true
  | _ => false
  end = bool_decide (r mod 2 ^ 24 < 2 ^ 23).
Proof.
  change (2 ^ 24) with 16777216. change (2 ^ 23) with 8388608.
  set (a := r mod 16777216).
  unfold Qcompare, Qdiv, Qmult, Qinv, inject_Z. cbn [Qnum Qden].
  change (Z.pos (1 * 16777216)) with 16777216.
  destruct (Z.compare_spec (a * 1 * 2) (1 * 16777216));
    symmetry; [apply bool_decide_eq_false_2 | apply bool_decide_eq_true_2
              | apply bool_decide_eq_false_2]; lia.
Qed.

(** What [preprocess_image] does at training time with the next four
    words of the random stream. *)
Lemma preprocess_image_training_run (image : Image) (w : world) :
  tf.has_shape image 32 32 3 ->
  let r0 := draws w (cursor w) in
  let r1 := draws w (1 + cursor w)%nat in
  let r3 := draws w (3 + cursor w)%nat in
  let cropped :=
    window (tf_image.resize_image_with_crop_or_pad image (_HEIGHT + 8) (_WIDTH + 8))
           (r0 mod 9) (r1 mod 9) 0 32 32 3 in
  preprocess_image image true w
  = (Ok (tf_image.per_image_standardization
           (if bool_decide (r3 mod 2 ^ 24 < 2 ^ 23)
            then reverse <$> cropped else cropped)),
     advance w 4).
Proof.
  intros Hshape. cbv zeta.
  destruct (padded_dims image Hshape) as (Hh & Hw & Hd). cbv zeta in Hh, Hw, Hd.
  rewrite <- mirror_cond_word.
  unfold preprocess_image, tf_image.random_crop. rewrite Hh, Hw, Hd.
  destruct (decide _) as [_|Hno].
  - unfold mbind, M_bind, mret, M_ret, random_word,
      tf_image.random_flip_left_right, tf_image.random_uniform_unit.
    cbn [draws cursor dirs files opened].
    unfold mbind, M_bind, mret, M_ret, random_word. cbn [draws cursor dirs files opened].
    change (3 - _NUM_CHANNELS + 1) with 1.
    rewrite (Z.mod_1_r (draws w (S (S (cursor w))))).
    reflexivity.
  - exfalso. apply Hno. unfold _HEIGHT, _WIDTH, _NUM_CHANNELS. clear. lia.
Qed.

Lemma flip_shape (image : Image) d0 d1 d2 :
  tf.has_shape image d0 d1 d2 -> tf.has_shape (reverse <$> image) d0 d1 d2.
Proof.
  intros [Hlen Hrows]. split; [now rewrite length_fmap|].
  apply Forall_fmap. eapply Forall_impl; [exact Hrows|].
  intros row [Hrow Hcells]. cbv beta delta [compose].
  split; [now rewrite length_reverse | now apply Forall_reverse].
Qed.

Lemma standardization_shape (image : Image) d0 d1 d2 :
  tf.has_shape image d0 d1 d2 ->
  tf.has_shape (tf_image.per_image_standardization image) d0 d1 d2.
Proof. intros Hshape. now apply has_shape_map3. Qed.

(** Whatever the mode and the draws, an image of shape 32 x 32 x 3 is
    preprocessed into an image of that shape. *)
Lemma preprocess_image_sample (image : Image) (is_training : bool) (w : world) :
  tf.has_shape image 32 32 3 ->
  exists out,
    preprocess_image image is_training w
    = (Ok out, advance w (if is_training then 4 else 0)) /\
    tf.has_shape out 32 32 3.
Proof.
  intros Hshape. destruct is_training.
  - rewrite (preprocess_image_training_run image w Hshape). cbv zeta.
    eexists. split; [reflexivity|]. apply standardization_shape.
    assert (Hwin : tf.has_shape
              (window (tf_image.resize_image_with_crop_or_pad image
                         (_HEIGHT + 8) (_WIDTH + 8))
                      (draws w (cursor w) mod 9)
                      (draws w (1 + cursor w)%nat mod 9) 0 32 32 3) 32 32 3).
    { apply window_shape; [now apply padded_shape| |].
      - pose proof (Z.mod_pos_bound (draws w (cursor w)) 9). lia.
      - pose proof (Z.mod_pos_bound (draws w (1 + cursor w)%nat) 9). lia. }
    destruct (bool_decide _); [now apply flip_shape | exact Hwin].
  - exists (tf_image.per_image_standardization image).
    split; [destruct w; reflexivity | now apply standardization_shape].
Qed.

(** X3. Preprocessing keeps the shape of a 32 x 32 x 3 image in both
    modes; it takes exactly four words of the random stream at training
    time and none at evaluation time, and opens no file. *)
Theorem preprocess_image_shape (image : Image) (is_training : bool) (w : world) :
  tf.has_shape image 32 32 3 ->
  exists out w',
    preprocess_image image is_training w = (Ok out, w') /\
    tf.has_shape out 32 32 3 /\
    cursor w' = ((if is_training then 4 else 0) + cursor w)%nat /\
    opened w' = opened w /\
    same_files w w'.
Proof.
  intros Hshape.
  destruct (preprocess_image_sample image is_training w Hshape) as (out & Hrun & Hout).
  exists out, (advance w (if is_training then 4 else 0)).
  split; [exact Hrun|]. split; [exact Hout|]. repeat split.
Qed.


(** X4. At training time, when the two crop offsets drawn are both 4, the
    crop undoes the padding: the output is the standardization of the
    image itself, or of its left-right mirror image when the flip is
    drawn; without the flip it is the output of evaluation time. *)
Theorem preprocess_image_centre_crop (image : Image) (w : world) :
  tf.has_shape image 32 32 3 ->
  draws w (cursor w) mod 9 = 4 ->
  draws w (1 + cursor w)%nat mod 9 = 4 ->
  let mirror := bool_decide (draws w (3 + cursor w)%nat mod 2 ^ 24 < 2 ^ 23) in
  preprocess_image image true w
  = (Ok (tf_image.per_image_standardization
           (if mirror then reverse <$> image else image)),
     advance w 4) /\
  (mirror = false ->
   (preprocess_image image true w).1 = (preprocess_image image false w).1).
Proof.
  intros Hshape H0 H1 mirror.
  assert (Hrun : preprocess_image image true w
                 = (Ok (tf_image.per_image_standardization
                          (if mirror then reverse <$> image else image)),
                    advance w 4)).
  { rewrite (preprocess_image_training_run image w Hshape). cbv zeta.
    rewrite H0, H1, (window_centre image Hshape). reflexivity. }
  split; [exact Hrun|]. intros Hmirror. rewrite Hrun, Hmirror. reflexivity.
Qed.


(** ** The batches, in general *)

Section batches_general.
Context {A : Type}.
Local Open Scope nat_scope.

Lemma batches_cons fuel n (x : A) xs :
  tf_data.batches (S fuel) n (x :: xs)
  = take n (x :: xs) :: tf_data.batches fuel n (drop n (x :: xs)).
Proof. reflexivity. Qed.

(** Nothing is lost or reordered; every batch but the last is full, no
    batch is empty, and there are [ceil(length / n)] of them. *)
Lemma batches_structure (n : nat) (xs : list A) fuel :
  0 < n -> length xs <= fuel ->
  mjoin (tf_data.batches fuel n xs) = xs /\
  Forall (fun b => 1 <= length b <= n) (tf_data.batches fuel n xs) /\
  length (tf_data.batches fuel n xs) = (length xs + n - 1) / n /\
  (forall i b, S i < length (tf_data.batches fuel n xs) ->
     tf_data.batches fuel n xs !! i = Some b -> length b = n).
Proof.
  intros Hn. revert xs. induction fuel as [|fuel IH]; intros xs Hfuel.
  - destruct xs; [|simpl in Hfuel; lia]. simpl.
    split_and!; [reflexivity | apply Forall_nil_2 | | intros i b Hi; simpl in Hi; lia].
    symmetry. apply Nat.div_small. lia.
  - destruct xs as [|x xs].
    { simpl. split_and!; [reflexivity | apply Forall_nil_2 |
                          | intros i b Hi; simpl in Hi; lia].
      symmetry. apply Nat.div_small. lia. }
    rewrite batches_cons.
    destruct (IH (drop n (x :: xs))) as (Hjoin & Hall & Hcount & Hfull).
    { rewrite length_drop. simpl in *. lia. }
    set (rest := tf_data.batches fuel n (drop n (x :: xs))) in *.
    assert (Htake : length (take n (x :: xs)) = min n (length (x :: xs)))
      by apply length_take.
    split_and!.
    + simpl mjoin. rewrite Hjoin. apply take_drop.
    + constructor; [|exact Hall]. rewrite Htake. simpl. lia.
    + simpl length at 1. rewrite Hcount, length_drop.
      set (len := length (x :: xs)) in *.
      assert (1 <= len) by (subst len; simpl; lia).
      destruct (decide (len <= n)) as [Hle|Hgt].
      * replace (len - n) with 0 by lia.
        rewrite (Nat.div_small (0 + n - 1)) by lia.
        assert (len + n - 1 = 1 * n + (len - 1)) as -> by lia.
        rewrite Nat.div_add_l by lia. rewrite Nat.div_small by lia. reflexivity.
      * assert (len + n - 1 = 1 * n + (len - n + n - 1)) as -> by lia.
        rewrite Nat.div_add_l by lia. lia.
    + intros [|i] b Hi Hb; simpl in Hi, Hb.
      * injection Hb as <-. rewrite Htake.
        destruct rest as [|b' rest'] eqn:Hrest; [simpl in Hi; lia|].
        assert (Hb' : 1 <= length b').
        { apply Forall_cons in Hall as [Hb' _]. lia. }
        assert (length (mjoin (b' :: rest')) = length (drop n (x :: xs)))
          by now rewrite Hjoin.
        simpl mjoin in H. rewrite length_app, length_drop in H. lia.
      * apply (Hfull i b); [lia | exact Hb].
Qed.

Lemma Forall_join_inv (P : A -> Prop) (ls : list (list A)) :
  Forall P (mjoin ls) -> Forall (Forall P) ls.
Proof.
  induction ls as [|l ls IH]; intros H; [constructor|].
  simpl in H. apply Forall_app in H as [Hl Hls]. constructor; auto.
Qed.

End batches_general.

Lemma join_fmap_fst {A B} (bs : list (list (A * B))) :
  mjoin ((fun b => b.*1) <$> bs) = (mjoin bs).*1.
Proof.
  induction bs as [|b bs IH]; [reflexivity|].
  change (mjoin ((fun b => b.*1) <$> (b :: bs)))
    with (b.*1 ++ mjoin ((fun b => b.*1) <$> bs)).
  change (mjoin (b :: bs)) with (b ++ mjoin bs).
  now rewrite fmap_app, IH.
Qed.

Lemma join_fmap_snd {A B} (bs : list (list (A * B))) :
  mjoin ((fun b => b.*2) <$> bs) = (mjoin bs).*2.
Proof.
  induction bs as [|b bs IH]; [reflexivity|].
  change (mjoin ((fun b => b.*2) <$> (b :: bs)))
    with (b.*2 ++ mjoin ((fun b => b.*2) <$> bs)).
  change (mjoin (b :: bs)) with (b ++ mjoin bs).
  now rewrite fmap_app, IH.
Qed.

(** Taking the batches apart gives the samples back, images and labels
    side by side. *)
Lemma unbatch_batched (batch_size : Z) (samples : list (Image * Label)) :
  0 < batch_size ->
  unbatch (batched batch_size samples) = (samples.*1, samples.*2).
Proof.
  intros Hsize. unfold unbatch, batched.
  destruct (batches_structure (Z.to_nat batch_size) samples (length samples))
    as (Hjoin & _); [lia | reflexivity |].
  rewrite <- !list_fmap_compose.
  change (fst ∘ _) with (fun b : list (Image * Label) => b.*1).
  change (snd ∘ _) with (fun b : list (Image * Label) => b.*2).
  now rewrite join_fmap_fst, join_fmap_snd, Hjoin.
Qed.

Lemma input_fn_batched is_training data_dir batch_size num_epochs w filenames
    samples w' :
  get_filenames is_training data_dir w = (Ok filenames, w) ->
  0 < batch_size ->
  tf_data.repeat (one_pass is_training filenames) num_epochs w = (Ok samples, w') ->
  input_fn is_training data_dir batch_size num_epochs w
  = (Ok (batched batch_size samples), w').
Proof.
  intros Hnames Hsize Hrun. rewrite input_fn_unfold.
  unfold mbind at 1, M_bind at 1. rewrite Hnames.
  unfold tf_data.batch. destruct (decide _) as [Hno|_]; [lia|].
  unfold mbind, M_bind. rewrite Hrun. reflexivity.
Qed.

(** ** What the pipeline makes of the records *)

Lemma one_pass_samples (is_training : bool) w filenames per_file w1 :
  Forall2 (file_has_records w) filenames per_file ->
  same_files w w1 ->
  returns (one_pass is_training filenames) w1
    (fun samples w2 =>
       (exists records,
          records ≡ₚ mjoin per_file /\
          (is_training = false -> records = mjoin per_file) /\
          Forall2 (sample_of is_training) records samples) /\
       same_files w w2).
Proof.
  intros Hfiles Hsame. unfold one_pass, tf_data.map.
  pose proof (file_has_records_lengths w filenames per_file Hfiles) as Hlens.
  apply returns_bind. apply returns_bind.
  assert (Hraw : returns
            (if is_training
             then tf_data.shuffle (record_dataset filenames) (_NUM_IMAGES train)
             else record_dataset filenames) w1
            (fun records w2 =>
               (records ≡ₚ mjoin per_file /\
                (is_training = false -> records = mjoin per_file)) /\
               same_files w w2)).
  { destruct is_training.
    - eapply returns_mono;
        [apply (raw_stage_returns true w filenames per_file); assumption|].
      intros records w2 [Hperm Hsame2]. split; [|exact Hsame2].
      split; [exact Hperm | discriminate].
    - eapply returns_mono;
        [apply (record_dataset_returns w filenames per_file); assumption|].
      intros records w2 [-> Hsame2]. split; [|exact Hsame2].
      split; [reflexivity | reflexivity]. }
  eapply returns_mono; [exact Hraw|].
  intros records w2 [[Hperm Horder] Hsame2]. cbv beta.
  rewrite <- Hperm in Hlens.
  eapply returns_mono.
  { apply (returns_mapM _ (same_files w) (fun raw sample => sample = decoded raw)).
    - eapply Forall_impl; [exact Hlens|]. intros raw Hraw' wa Hwa.
      cbv beta in Hraw'. eapply returns_lift.
      + apply parse_record_long. rewrite Hraw'. apply Nat.le_refl.
      + split; [reflexivity | exact Hwa].
    - exact Hsame2. }
  intros decoded_samples w3 [Hdecoded Hsame3]. cbv beta.
  eapply returns_mono.
  { apply (returns_mapM _ (same_files w)
             (fun d s => s.2 = d.2 /\ tf.has_shape s.1 32 32 3 /\
                         exists wa wb,
                           preprocess_image d.1 is_training wa = (Ok s.1, wb))).
    - eapply Forall2_Forall_r; [exact Hdecoded|].
      eapply Forall_impl; [exact Hlens|].
      intros raw Hraw' sample -> wa Hwa. cbv beta in Hraw'.
      pose proof (decoded_shape raw Hraw') as Hshape.
      destruct (decoded raw) as [image label]. cbn [fst snd] in *.
      destruct (preprocess_image_sample image is_training wa Hshape)
        as (out & Hrun & Hout).
      apply returns_bind. exists out, (advance wa (if is_training then 4 else 0)).
      split; [exact Hrun|]. apply returns_ret. cbn [fst snd].
      split; [|destruct Hwa; split; assumption].
      split; [reflexivity|]. split; [exact Hout|]. eauto.
    - exact Hsame3. }
  intros samples w4 [Hsamples Hsame4]. cbv beta. split; [|exact Hsame4].
  exists records. split; [exact Hperm|]. split; [exact Horder|].
  clear - Hdecoded Hsamples.
  revert samples Hsamples.
  induction Hdecoded as [|raw d records ds -> _ IH]; intros samples Hsamples.
  - inversion Hsamples. constructor.
  - inversion Hsamples as [|? s ? samples' Hs Hrest]; subst.
    constructor; [exact Hs | now apply IH].
Qed.

Lemma repeat_passes {A} (dataset : M (list A)) (I : world -> Prop)
    (P : list A -> Prop) (count : nat) w :
  (forall w1, I w1 -> returns dataset w1 (fun xs w2 => P xs /\ I w2)) ->
  I w ->
  returns (tf_data.repeat dataset count) w
    (fun out w' =>
       (exists passes,
          out = mjoin passes /\ length passes = count /\ Forall P passes) /\
       I w').
Proof.
  intros Hpass. revert w. induction count as [|count IH]; intros w HI.
  - apply returns_ret. split; [|exact HI].
    exists []. repeat split. constructor.
  - simpl tf_data.repeat. apply returns_bind.
    eapply returns_mono; [apply Hpass; exact HI|].
    intros xs w1 [Hxs HI1]. cbv beta. apply returns_bind.
    eapply returns_mono; [apply IH; exact HI1|].
    intros rest w2 [(passes & -> & Hlen & Hall) HI2]. cbv beta.
    apply returns_ret. split; [|exact HI2].
    exists (xs :: passes). split; [reflexivity|].
    split; [simpl; now rewrite Hlen | now constructor].
Qed.

Lemma input_fn_passes (is_training : bool) (data_dir : string) (batch_size : Z)
    (num_epochs : nat) (w : world) filenames per_file :
  get_filenames is_training data_dir w = (Ok filenames, w) ->
  Forall2 (file_has_records w) filenames per_file ->
  0 < batch_size ->
  exists passes w',
    input_fn is_training data_dir batch_size num_epochs w
    = (Ok (batched batch_size (mjoin passes)), w') /\
    length passes = num_epochs /\
    Forall (pass_of is_training (mjoin per_file)) passes /\
    same_files w w'.
Proof.
  intros Hnames Hfiles Hsize.
  destruct (repeat_passes (one_pass is_training filenames) (same_files w)
              (pass_of is_training (mjoin per_file)) num_epochs w)
    as (out & w' & Hrun & (passes & -> & Hlen & Hall) & Hsame).
  - intros w1 Hw1. now apply (one_pass_samples is_training w filenames per_file).
  - apply same_files_refl.
  - exists passes, w'. split; [|split; [exact Hlen | split; assumption]].
    now apply (input_fn_batched _ _ _ _ _ filenames).
Qed.

Lemma pass_of_length is_training records pass :
  pass_of is_training records pass -> length pass = length records.
Proof.
  intros (shuffled & Hperm & _ & Hall).
  apply Forall2_length in Hall. now rewrite <- Hall, Hperm.
Qed.

Lemma passes_length is_training records passes :
  Forall (pass_of is_training records) passes ->
  length (mjoin passes) = (length passes * length records)%nat.
Proof.
  induction 1 as [|pass passes Hpass _ IH]; [reflexivity|].
  simpl. rewrite length_app, IH, (pass_of_length _ _ _ Hpass). reflexivity.
Qed.

Lemma pass_of_shapes is_training records pass :
  Forall (fun raw => length raw = 3073%nat) records ->
  pass_of is_training records pass ->
  Forall (fun s => tf.has_shape s.1 32 32 3 /\ length s.2 = 10%nat) pass.
Proof.
  intros Hlens (shuffled & Hperm & _ & Hall).
  eapply Forall2_Forall_r; [exact Hall|]. apply Forall_forall.
  intros raw _ s (Hlabel & Hshape & _). split; [exact Hshape|].
  rewrite Hlabel. unfold decoded. cbn [snd]. apply one_hot_length.
Qed.

(** X6. With the files in place and a positive batch size, [input_fn]
    delivers [ceil(total / batch_size)] batches for the
    [total = num_epochs * records] samples: no batch is empty, none is
    larger than [batch_size], every batch before the last is full, images
    and labels of a batch are as many, and the batches hold [total] samples
    in all. *)
Theorem input_fn_batch_structure (is_training : bool) (data_dir : string)
    (batch_size : Z) (num_epochs : nat) (w : world)
    (filenames : list string) (per_file : list (list (list byte))) :
  get_filenames is_training data_dir w = (Ok filenames, w) ->
  Forall2 (file_has_records w) filenames per_file ->
  0 < batch_size ->
  let total := (num_epochs * length (mjoin per_file))%nat in
  let n := Z.to_nat batch_size in
  exists batches w',
    input_fn is_training data_dir batch_size num_epochs w = (Ok batches, w') /\
    length batches = ((total + n - 1) / n)%nat /\
    Forall (fun b => (1 <= batch_len b <= n)%nat /\ length b.2 = batch_len b)
           batches /\
    (forall i b, (S i < length batches)%nat -> batches !! i = Some b ->
       batch_len b = n) /\
    length (unbatch batches).1 = total /\
    length (unbatch batches).2 = total.
Proof.
  intros Hnames Hfiles Hsize total n.
  destruct (input_fn_passes is_training data_dir batch_size num_epochs w
              filenames per_file Hnames Hfiles Hsize)
    as (passes & w' & Hrun & Hlen & Hall & _).
  assert (Htotal : length (mjoin passes) = total).
  { rewrite (passes_length _ _ _ Hall), Hlen. reflexivity. }
  destruct (batches_structure n (mjoin passes) (length (mjoin passes)))
    as (Hjoin & Hsizes & Hcount & Hfull); [subst n; lia | reflexivity |].
  exists (batched batch_size (mjoin passes)), w'. split; [exact Hrun|].
  rewrite (unbatch_batched _ _ Hsize). cbn [fst snd]. rewrite !length_fmap.
  unfold batched. fold n. rewrite length_fmap, Hcount.
  split; [now rewrite Htotal|]. split.
  { apply Forall_fmap. eapply Forall_impl; [exact Hsizes|].
    intros b Hb. unfold batch_len. cbn [compose fst snd].
    rewrite !length_fmap. split; [exact Hb | reflexivity]. }
  split; [|split; exact Htotal].
  intros i b Hi Hb. rewrite list_lookup_fmap in Hb.
  destruct (tf_data.batches _ _ _ !! i) as [b0|] eqn:Hb0; [|discriminate].
  injection Hb as <-. unfold batch_len. cbn [fst]. rewrite length_fmap.
  apply (Hfull i b0); [|exact Hb0]. now rewrite Hcount.
Qed.


(** X7. Every image of every batch that [input_fn] delivers has shape
    32 x 32 x 3 and every label has length 10, at training and at
    evaluation time: the samples of a batch can be stacked. *)
Theorem input_fn_batches_stack (is_training : bool) (data_dir : string)
    (batch_size : Z) (num_epochs : nat) (w : world)
    (filenames : list string) (per_file : list (list (list byte))) :
  get_filenames is_training data_dir w = (Ok filenames, w) ->
  Forall2 (file_has_records w) filenames per_file ->
  0 < batch_size ->
  exists batches w',
    input_fn is_training data_dir batch_size num_epochs w = (Ok batches, w') /\
    Forall (fun b => Forall (fun image => tf.has_shape image 32 32 3) b.1 /\
                     Forall (fun label => length label = 10%nat) b.2) batches.
Proof.
  intros Hnames Hfiles Hsize.
  destruct (input_fn_passes is_training data_dir batch_size num_epochs w
              filenames per_file Hnames Hfiles Hsize)
    as (passes & w' & Hrun & _ & Hall & _).
  exists (batched batch_size (mjoin passes)), w'. split; [exact Hrun|].
  assert (Hsamples : Forall (fun s : Image * Label =>
                               tf.has_shape s.1 32 32 3 /\ length s.2 = 10%nat)
                            (mjoin passes)).
  { apply Forall_join. eapply Forall_impl; [exact Hall|].
    intros pass Hpass. eapply pass_of_shapes; [|exact Hpass].
    eapply file_has_records_lengths. exact Hfiles. }
  destruct (batches_structure (Z.to_nat batch_size) (mjoin passes)
              (length (mjoin passes))) as (Hjoin & _); [lia | reflexivity |].
  rewrite <- Hjoin in Hsamples. apply Forall_join_inv in Hsamples.
  unfold batched. apply Forall_fmap. eapply Forall_impl; [exact Hsamples|].
  intros b Hb. cbn [compose fst snd]. split; apply Forall_fmap;
    (eapply Forall_impl; [exact Hb|]); intros s [Hs1 Hs2]; assumption.
Qed.


Lemma pass_of_labels is_training records pass :
  pass_of is_training records pass ->
  pass.*2 ≡ₚ (fun raw => (decoded raw).2) <$> records.
Proof.
  intros (shuffled & Hperm & _ & Hall). rewrite <- Hperm. clear Hperm.
  induction Hall as [|raw s shuffled pass (Hlabel & _) _ IH]; [reflexivity|].
  cbn [fmap list_fmap]. rewrite Hlabel. now apply Permutation_skip.
Qed.

(** X8. The samples that [input_fn] delivers are [num_epochs] passes over
    the records, one after the other: within a pass every record is used
    exactly once (in file order at evaluation time, in a shuffled order at
    training time), every sample carries the label of the record its image
    was preprocessed from, and so the labels of a pass are the labels of
    the records up to order. *)
Theorem input_fn_epochs (is_training : bool) (data_dir : string)
    (batch_size : Z) (num_epochs : nat) (w : world)
    (filenames : list string) (per_file : list (list (list byte))) :
  get_filenames is_training data_dir w = (Ok filenames, w) ->
  Forall2 (file_has_records w) filenames per_file ->
  0 < batch_size ->
  exists batches w' passes,
    input_fn is_training data_dir batch_size num_epochs w = (Ok batches, w') /\
    unbatch batches = ((mjoin passes).*1, (mjoin passes).*2) /\
    length passes = num_epochs /\
    Forall (pass_of is_training (mjoin per_file)) passes /\
    Forall (fun pass =>
              pass.*2 ≡ₚ (fun raw => (decoded raw).2) <$> mjoin per_file)
           passes.
Proof.
  intros Hnames Hfiles Hsize.
  destruct (input_fn_passes is_training data_dir batch_size num_epochs w
              filenames per_file Hnames Hfiles Hsize)
    as (passes & w' & Hrun & Hlen & Hall & _).
  exists (batched batch_size (mjoin passes)), w', passes.
  split; [exact Hrun|]. split; [now apply unbatch_batched|].
  split; [exact Hlen|]. split; [exact Hall|].
  eapply Forall_impl; [exact Hall|]. intros pass. apply pass_of_labels.
Qed.


(** ** Runs that draw nothing: the files and the evaluation pipeline *)

Lemma log_opened_nil w : log_opened w [] = w.
Proof. destruct w. unfold log_opened. cbn. now rewrite app_nil_r. Qed.

Lemma log_opened_app w names1 names2 :
  log_opened (log_opened w names1) names2 = log_opened w (names1 ++ names2).
Proof. unfold log_opened. cbn. now rewrite app_assoc. Qed.

Lemma mapM_pure {A B} (f : A -> M B) (h : A -> B) (xs : list A) w :
  Forall (fun x => forall w1, f x w1 = (Ok (h x), w1)) xs ->
  mapM f xs w = (Ok (h <$> xs), w).
Proof.
  induction 1 as [|x xs Hx _ IH]; [reflexivity|].
  simpl mapM. unfold mbind, M_bind. rewrite Hx.
  unfold mbind, M_bind in IH. rewrite IH. reflexivity.
Qed.

Lemma read_records_run (w w1 : world) filenames per_file :
  Forall2 (file_has_records w) filenames per_file ->
  files w1 = files w ->
  mapM (fun name => content ← read_file name;
                    lift (tf_data.file_records (_DEFAULT_IMAGE_SIZE + 1) content))
       filenames w1
  = (Ok per_file, log_opened w1 filenames).
Proof.
  intros Hfiles. revert w1.
  induction Hfiles as [|name recs names per_file (content & Hget & Hrecs) _ IH];
    intros w1 Hsame.
  - simpl. now rewrite log_opened_nil.
  - assert (Hget1 : files w1 !! name = Some content) by now rewrite Hsame.
    simpl mapM. unfold mbind at 1, M_bind at 1. unfold mbind at 1, M_bind at 1.
    unfold read_file at 1. rewrite Hget1. unfold lift at 1. rewrite Hrecs.
    unfold mbind, M_bind.
    change (World (dirs w1) (files w1) (draws w1) (cursor w1) (opened w1 ++ [name]))
      with (log_opened w1 [name]).
    unfold mbind, M_bind in IH. rewrite IH by exact Hsame.
    rewrite log_opened_app. reflexivity.
Qed.

Lemma record_dataset_run (w w1 : world) filenames per_file :
  Forall2 (file_has_records w) filenames per_file ->
  files w1 = files w ->
  record_dataset filenames w1 = (Ok (mjoin per_file), log_opened w1 filenames).
Proof.
  intros Hfiles Hsame. unfold record_dataset, tf_data.FixedLengthRecordDataset.
  cbv zeta. unfold mbind, M_bind.
  pose proof (read_records_run w w1 filenames per_file Hfiles Hsame) as Hrun.
  unfold mbind, M_bind in Hrun. rewrite Hrun. reflexivity.
Qed.

Lemma one_pass_eval_run (w w1 : world) filenames per_file :
  Forall2 (file_has_records w) filenames per_file ->
  files w1 = files w ->
  one_pass false filenames w1
  = (Ok (eval_sample <$> mjoin per_file), log_opened w1 filenames).
Proof.
  intros Hfiles Hsame. unfold one_pass, tf_data.map.
  pose proof (file_has_records_lengths w filenames per_file Hfiles) as Hlens.
  unfold mbind at 1, M_bind at 1. unfold mbind at 1, M_bind at 1.
  rewrite (record_dataset_run w w1 filenames per_file Hfiles Hsame).
  rewrite (mapM_pure _ decoded).
  - rewrite (mapM_pure _ (fun d : Image * Label =>
                            (tf_image.per_image_standardization d.1, d.2))).
    + rewrite <- list_fmap_compose. reflexivity.
    + apply Forall_forall. intros [image label] _ wa. reflexivity.
  - eapply Forall_impl; [exact Hlens|]. intros raw Hraw wa. cbv beta in Hraw.
    unfold lift. rewrite parse_record_long; [reflexivity|].
    rewrite Hraw. apply Nat.le_refl.
Qed.

Lemma repeat_eval_run {A} (dataset : M (list A)) (w : world) (xs : list A)
    (names : list string) (count : nat) :
  (forall w1, files w1 = files w -> dataset w1 = (Ok xs, log_opened w1 names)) ->
  forall w1, files w1 = files w ->
  tf_data.repeat dataset count w1
  = (Ok (mjoin (replicate count xs)), log_opened w1 (mjoin (replicate count names))).
Proof.
  intros Hpass. induction count as [|count IH]; intros w1 Hsame.
  - simpl. now rewrite log_opened_nil.
  - simpl tf_data.repeat. unfold mbind, M_bind. rewrite Hpass by exact Hsame.
    unfold mbind, M_bind in IH. rewrite IH by exact Hsame.
    rewrite log_opened_app. reflexivity.
Qed.

Lemma get_filenames_same_files is_training data_dir w w2 filenames :
  same_files w w2 ->
  get_filenames is_training data_dir w = (Ok filenames, w) ->
  get_filenames is_training data_dir w2 = (Ok filenames, w2).
Proof.
  intros [Hdirs Hfs]. unfold get_filenames, mbind, M_bind, os.path.exists_.
  rewrite Hdirs, Hfs.
  destruct (bool_decide _ || bool_decide _); cbn [negb].
  - destruct is_training; unfold mret, M_ret; intros H; injection H as <-; reflexivity.
  - discriminate.
Qed.

(** X5. At evaluation time [input_fn] is a function of the files alone:
    it delivers, batch after batch, the records in file order, each decoded
    and standardized, [num_epochs] times over; it opens the files in order
    once per pass and draws no random word, so a second call in a world
    with the same files delivers the same batches. *)
Theorem input_fn_eval_in_order (data_dir : string) (batch_size : Z)
    (num_epochs : nat) (w : world)
    (filenames : list string) (per_file : list (list (list byte))) :
  get_filenames false data_dir w = (Ok filenames, w) ->
  Forall2 (file_has_records w) filenames per_file ->
  0 < batch_size ->
  let samples := mjoin (replicate num_epochs (eval_sample <$> mjoin per_file)) in
  input_fn false data_dir batch_size num_epochs w
  = (Ok (batched batch_size samples),
     log_opened w (mjoin (replicate num_epochs filenames))) /\
  unbatch (batched batch_size samples) = (samples.*1, samples.*2) /\
  (forall w2, same_files w w2 ->
     (input_fn false data_dir batch_size num_epochs w2).1
     = (input_fn false data_dir batch_size num_epochs w).1).
Proof.
  intros Hnames Hfiles Hsize samples.
  assert (Hrun : forall w2, same_files w w2 ->
            input_fn false data_dir batch_size num_epochs w2
            = (Ok (batched batch_size samples),
               log_opened w2 (mjoin (replicate num_epochs filenames)))).
  { intros w2 Hsame.
    apply (input_fn_batched _ _ _ _ _ filenames);
      [now apply (get_filenames_same_files _ _ w) | exact Hsize |].
    apply (repeat_eval_run _ w); [|apply Hsame].
    intros w1 Hw1. now apply (one_pass_eval_run w). }
  split; [apply Hrun, same_files_refl|].
  split; [now apply unbatch_batched|].
  intros w2 Hsame. rewrite (Hrun w2 Hsame), (Hrun w (same_files_refl w)).
  reflexivity.
Qed.


(** ** The files, byte for byte *)

Section rows_join.
Context {A : Type}.
Local Open Scope nat_scope.

Lemma rows_join_back n k (l : list A) :
  length l = k * n -> mjoin (tf.rows n k l) = l.
Proof.
  revert l. induction k as [|k IH]; intros l Hl.
  - destruct l; [reflexivity | simpl in Hl; lia].
  - simpl. rewrite IH by (rewrite length_drop; lia). apply take_drop.
Qed.

Lemma rows_join n (ls : list (list A)) :
  Forall (fun l => length l = n) ls -> tf.rows n (length ls) (mjoin ls) = ls.
Proof.
  induction 1 as [|l ls Hl _ IH]; [reflexivity|].
  simpl. rewrite take_app_length', drop_app_length' by now rewrite Hl.
  now rewrite IH.
Qed.

Lemma length_join_uniform n (ls : list (list A)) :
  Forall (fun l => length l = n) ls -> length (mjoin ls) = length ls * n.
Proof.
  induction 1 as [|l ls Hl _ IH]; [reflexivity|].
  simpl. rewrite length_app, IH, Hl. reflexivity.
Qed.

Lemma join_join (lss : list (list (list A))) :
  mjoin (mjoin lss) = mjoin (mjoin <$> lss).
Proof.
  induction lss as [|ls lss IH]; [reflexivity|].
  simpl. now rewrite join_app, IH.
Qed.

End rows_join.

(** X11. When every file named exists and its size is a multiple of the
    record length, [record_dataset] opens the files in the order given and
    cuts them into records of 3073 bytes without a header, a gap or a
    reordering: the records put end to end are the files put end to
    end. *)
Theorem record_dataset_bytes (w : world) (filenames : list string)
    (contents : list (list byte)) :
  Forall2 (fun name content =>
             files w !! name = Some content /\
             Z.of_nat (length content) mod (_DEFAULT_IMAGE_SIZE + 1) = 0)
          filenames contents ->
  exists records,
    record_dataset filenames w = (Ok records, log_opened w filenames) /\
    mjoin records = mjoin contents /\
    Forall (fun raw => length raw = 3073%nat) records /\
    (length records * 3073 = length (mjoin contents))%nat.
Proof.
  intros Hfiles.
  assert (Hper : exists per_file,
            Forall2 (file_has_records w) filenames per_file /\
            (fun recs : list (list byte) => mjoin recs) <$> per_file = contents).
  { induction Hfiles as [|name content names contents [Hget Hmod] _ IH].
    - exists []. split; [constructor | reflexivity].
    - destruct IH as (per_file & Hall & Hjoin).
      destruct (tf_data.file_records (_DEFAULT_IMAGE_SIZE + 1) content)
        as [recs|e] eqn:Hrecs.
      + exists (recs :: per_file). split.
        * constructor; [|exact Hall]. exists content. split; assumption.
        * cbn [fmap list_fmap]. f_equal; [|exact Hjoin].
          pose proof (file_records_length _ _ _ Hrecs) as [_ Hcount].
          unfold tf_data.file_records in Hrecs.
          destruct (decide _) as [_|_]; [|discriminate].
          injection Hrecs as <-. apply rows_join_back.
          rewrite rows_length in Hcount.
          change (_DEFAULT_IMAGE_SIZE + 1) with 3073 in *.
          clear - Hcount. lia.
      + exfalso. unfold tf_data.file_records in Hrecs.
        destruct (decide _) as [_|Hno]; [discriminate|].
        apply Hno. split; [reflexivity | exact Hmod]. }
  destruct Hper as (per_file & Hall & Hjoin).
  exists (mjoin per_file).
  split; [now apply (record_dataset_run w)|].
  pose proof (file_has_records_lengths w filenames per_file Hall) as Hlens.
  assert (Hbytes : mjoin (mjoin per_file) = mjoin contents)
    by now rewrite join_join, <- Hjoin.
  split; [exact Hbytes|]. split; [exact Hlens|].
  rewrite <- Hbytes. symmetry. now apply length_join_uniform.
Qed.

Lemma record_dataset_bytes_witness :
  exists records,
    record_dataset ["/tmp/cifar10_data/cifar-10-batches-bin/test_batch.bin"]
      eval_world
    = (Ok records,
       log_opened eval_world
         ["/tmp/cifar10_data/cifar-10-batches-bin/test_batch.bin"]) /\
    mjoin records = flat_record x01 x02 ++ flat_record x03 x04.
Proof.
  destruct (record_dataset_bytes eval_world
              ["/tmp/cifar10_data/cifar-10-batches-bin/test_batch.bin"]
              [flat_record x01 x02 ++ flat_record x03 x04])
    as (records & Hrun & Hjoin & _).
  - repeat constructor; vm_compute; reflexivity.
  - exists records. split; [exact Hrun|]. rewrite Hjoin. apply app_nil_r.
Defined.



(** X12. When a file named is missing and fewer records come before it
    than the pipeline holds back before it delivers anything (the 50000
    slots of the shuffle buffer at training time, one batch at evaluation
    time), [input_fn] raises the framework's [NotFoundError] for the first
    such file and delivers no batch: the files before it were opened, in
    order, the files after it were not, and no random word was drawn. *)
Theorem input_fn_missing_file (is_training : bool) (data_dir : string)
    (batch_size : Z) (num_epochs : nat) (w : world)
    (before after : list string) (missing : string)
    (per_file : list (list (list byte))) :
  get_filenames is_training data_dir w = (Ok (before ++ missing :: after), w) ->
  Forall2 (file_has_records w) before per_file ->
  Z.of_nat (length (mjoin per_file))
    < (if is_training then _NUM_IMAGES train else batch_size) ->
  files w !! missing = None ->
  0 < batch_size ->
  input_fn is_training data_dir batch_size (S num_epochs) w
  = (Raise (NotFoundError missing), log_opened w (before ++ [missing])).
Proof.
  intros Hnames Hfiles _ Hmissing Hsize.
  assert (Hread : forall w1, files w1 = files w ->
            mapM (fun name => content ← read_file name;
                     lift (tf_data.file_records (_DEFAULT_IMAGE_SIZE + 1) content))
                 (before ++ missing :: after) w1
            = (Raise (NotFoundError missing), log_opened w1 (before ++ [missing]))).
  { clear Hnames.
    induction Hfiles as [|name recs names per_file (content & Hget & Hrecs) _ IH];
      intros w1 Hsame.
    - assert (Hnone : files w1 !! missing = None) by now rewrite Hsame.
      simpl. unfold mbind, M_bind, read_file. rewrite Hnone. reflexivity.
    - assert (Hget1 : files w1 !! name = Some content) by now rewrite Hsame.
      change ((name :: names) ++ missing :: after)
        with (name :: (names ++ missing :: after)).
      simpl mapM. unfold mbind at 1, M_bind at 1. unfold mbind at 1, M_bind at 1.
      unfold read_file at 1. rewrite Hget1. unfold lift at 1. rewrite Hrecs.
      change (World (dirs w1) (files w1) (draws w1) (cursor w1) (opened w1 ++ [name]))
        with (log_opened w1 [name]).
      unfold mbind, M_bind in IH |- *. rewrite IH by exact Hsame.
      rewrite log_opened_app. reflexivity. }
  assert (Hds : record_dataset (before ++ missing :: after) w
                = (Raise (NotFoundError missing), log_opened w (before ++ [missing]))).
  { unfold record_dataset, tf_data.FixedLengthRecordDataset. cbv zeta.
    unfold mbind, M_bind. specialize (Hread w eq_refl).
    unfold mbind, M_bind in Hread. rewrite Hread. reflexivity. }
  rewrite input_fn_unfold. unfold mbind at 1, M_bind at 1. rewrite Hnames.
  unfold tf_data.batch. destruct (decide _) as [Hno|_]; [lia|].
  simpl tf_data.repeat. unfold one_pass, tf_data.map.
  destruct is_training.
  - unfold tf_data.shuffle.
    destruct (decide _) as [Hno|_]; [exact (False_rect _ (Hno eq_refl))|].
    unfold mbind, M_bind. rewrite Hds. reflexivity.
  - unfold mbind, M_bind. rewrite Hds. reflexivity.
Qed.

(** ** The reshape at the head of [cifar10_model_fn] *)

Lemma unflatten {A} (d0 d1 d2 : nat) (t : list (list (list A))) :
  tf.has_shape t d0 d1 d2 ->
  tf.rows d2 d1 <$> tf.rows (d1 * d2) d0 (tf_image.flatten t) = t.
Proof.
  intros [Hlen Hrows]. unfold tf_image.flatten. rewrite join_join.
  set (flat := fmap mjoin t).
  assert (Hflat : Forall (fun l : list A => length l = (d1 * d2)%nat) flat).
  { subst flat. apply Forall_fmap. eapply Forall_impl; [exact Hrows|].
    intros row [Hrow Hcells]. cbv beta delta [compose].
    rewrite (length_join_uniform d2) by exact Hcells. now rewrite Hrow. }
  assert (Hflen : length flat = d0) by (subst flat; now rewrite length_fmap).
  rewrite <- Hflen, (rows_join _ _ Hflat). subst flat.
  rewrite <- list_fmap_compose.
  rewrite <- (list_fmap_id t) at 2. apply Forall_fmap_ext.
  eapply Forall_impl; [exact Hrows|]. intros row [Hrow Hcells].
  cbv beta delta [compose id]. rewrite <- Hrow. now apply rows_join.
Qed.

Lemma flatten_length {A} (d0 d1 d2 : nat) (t : list (list (list A))) :
  tf.has_shape t d0 d1 d2 -> length (tf_image.flatten t) = (d0 * (d1 * d2))%nat.
Proof.
  intros [Hlen Hrows]. unfold tf_image.flatten. rewrite join_join.
  rewrite (length_join_uniform (d1 * d2)).
  - now rewrite length_fmap, Hlen.
  - apply Forall_fmap. eapply Forall_impl; [exact Hrows|].
    intros row [Hrow Hcells]. cbv beta delta [compose].
    rewrite (length_join_uniform d2) by exact Hcells. now rewrite Hrow.
Qed.

(** X10. The reshape to [[-1, 32, 32, 3]] at the head of
    [cifar10_model_fn] leaves a batch of images of shape 32 x 32 x 3 as it
    is, whatever the number of images, and it rejects a tensor whose
    element count is not a multiple of 3072. *)
Theorem model_fn_features_batch (features : list Image) :
  (Forall (fun image => tf.has_shape image 32 32 3) features ->
   model_fn_features features = Ok features) /\
  (Z.of_nat (length (mjoin (tf_image.flatten <$> features))) mod 3072 ≠ 0 ->
   is_ok (model_fn_features features) = false).
Proof.
  unfold model_fn_features, reshape_batch. cbv zeta.
  change (_HEIGHT * _WIDTH * _NUM_CHANNELS) with 3072.
  change (Z.to_nat (_WIDTH * _NUM_CHANNELS)) with (32 * 3)%nat.
  change (Z.to_nat _NUM_CHANNELS) with 3%nat.
  change (Z.to_nat _WIDTH) with 32%nat.
  change (Z.to_nat _HEIGHT) with 32%nat.
  change (Z.to_nat 3072) with 3072%nat.
  split.
  - intros Hshapes.
    assert (Hflat : Forall (fun v : list tf.float32 => length v = 3072%nat)
                           (tf_image.flatten <$> features)).
    { apply Forall_fmap. eapply Forall_impl; [exact Hshapes|].
      intros image Himage. cbv beta delta [compose].
      now rewrite (flatten_length 32 32 3). }
    assert (Hlen : length (mjoin (tf_image.flatten <$> features))
                   = (length features * 3072)%nat).
    { now rewrite (length_join_uniform 3072), length_fmap. }
    rewrite Hlen.
    destruct (decide _) as [_|Hno].
    + f_equal.
      replace (Z.to_nat (Z.of_nat (length features * 3072) / 3072))
        with (length (tf_image.flatten <$> features)).
      * rewrite (rows_join _ _ Hflat). rewrite <- list_fmap_compose.
        rewrite <- (list_fmap_id features) at 2. apply Forall_fmap_ext.
        eapply Forall_impl; [exact Hshapes|]. intros image Himage.
        cbv beta delta [compose id]. now apply (unflatten 32 32 3).
      * rewrite length_fmap, Nat2Z.inj_mul, Z.div_mul by discriminate.
        now rewrite Nat2Z.id.
    + exfalso. apply Hno. unfold _HEIGHT, _WIDTH, _NUM_CHANNELS.
      split; [reflexivity|]. split; [reflexivity|]. split; [reflexivity|].
      rewrite Nat2Z.inj_mul. apply Z.mod_mul. discriminate.
  - intros Hmod. destruct (decide _) as [(_ & _ & _ & Hyes)|_]; [|reflexivity].
    contradiction.
Qed.

Lemma model_fn_features_batch_witness :
  model_fn_features [(decoded (flat_record x01 x20)).1; (decoded (flat_record x02 x30)).1]
  = Ok [(decoded (flat_record x01 x20)).1; (decoded (flat_record x02 x30)).1] /\
  is_ok (model_fn_features [[[[tf.f32_one]]]]) = false.
Proof.
  split.
  - apply (model_fn_features_batch _).
    repeat constructor; apply decoded_shape; reflexivity.
  - apply (model_fn_features_batch [[[[tf.f32_one]]]]). vm_compute. discriminate.
Defined.

(** ** The shuffle covers the epoch *)

Lemma advance_0 w : advance w 0 = w.
Proof. destruct w. reflexivity. Qed.

Lemma shuffle_emit_step {A} (fuel buffer_size : nat) (buffer input : list A) :
  tf_data.shuffle_emit (S fuel) buffer_size buffer input
  = (let room := (buffer_size - length buffer)%nat in
     let buffer := buffer ++ take room input in
     let input := drop room input in
     match last buffer with
     | None => mret []
     | Some back =>
         r ← random_word;
         let index := Z.to_nat (r mod Z.of_nat (length buffer)) in
         let out := default back (buffer !! index) in
         let buffer := take (length buffer - 1) (<[index := back]> buffer) in
         rest ← tf_data.shuffle_emit fuel buffer_size buffer input;
         mret (out :: rest)
     end).
Proof. reflexivity. Qed.

(** When the buffer can hold all the elements, every order of them is the
    output for some random words. *)
Lemma shuffle_emit_reaches {A} (buffer_size : nat) (target : list A) :
  forall buffer input fuel,
    target ≡ₚ buffer ++ input ->
    (length buffer + length input <= buffer_size)%nat ->
    (length target <= fuel)%nat ->
    exists words : list Z,
      forall w,
        (forall i r, words !! i = Some r -> draws w (i + cursor w) = r) ->
        tf_data.shuffle_emit fuel buffer_size buffer input w
        = (Ok target, advance w (length target)).
Proof.
  induction target as [|x target IH]; intros buffer input fuel Hperm Hfit Hfuel.
  - apply Permutation_nil_l in Hperm. symmetry in Hperm.
    apply app_eq_nil in Hperm as [-> ->].
    exists []. intros w _. rewrite advance_0.
    destruct fuel; [reflexivity|].
    rewrite shuffle_emit_step. cbv zeta. now rewrite take_nil.
  - destruct fuel as [|fuel]; [simpl in Hfuel; lia|].
    set (full := buffer ++ input) in *.
    assert (Hx : x ∈ full) by (rewrite <- Hperm; left).
    apply list_elem_of_lookup in Hx as [index Hindex].
    assert (Hlt : (index < length full)%nat) by now apply lookup_lt_Some in Hindex.
    destruct (last full) as [back|] eqn:Hlast;
      [|apply last_None in Hlast; rewrite Hlast in Hlt; simpl in Hlt; lia].
    pose proof (take_last_swap full back index Hlast Hlt) as Hswap.
    rewrite Hindex in Hswap. cbn [default] in Hswap.
    set (buffer2 := take (length full - 1) (<[index := back]> full)) in *.
    assert (Hperm2 : target ≡ₚ buffer2 ++ []).
    { rewrite app_nil_r. apply (Permutation_cons_inv (a := x)).
      now rewrite Hswap. }
    destruct (IH buffer2 [] fuel Hperm2) as [words Hwords].
    { subst buffer2. rewrite length_take, length_insert. subst full.
      rewrite length_app. simpl. lia. }
    { simpl in Hfuel. lia. }
    exists (Z.of_nat index :: words). intros w Hw.
    rewrite shuffle_emit_step. cbv zeta.
    rewrite take_ge, drop_ge by lia. fold full. rewrite Hlast.
    unfold mbind at 1, M_bind at 1. unfold random_word at 1.
    pose proof (Hw 0%nat (Z.of_nat index) eq_refl) as Hword.
    change (0 + cursor w)%nat with (cursor w) in Hword.
    cbn [draws cursor]. rewrite Hword.
    rewrite Z.mod_small by lia. rewrite Nat2Z.id, Hindex. cbn [default].
    fold buffer2. unfold mbind, M_bind.
    change (World (dirs w) (files w) (draws w) (S (cursor w)) (opened w))
      with (advance w 1).
    rewrite Hwords.
    + unfold mret, M_ret, advance. cbn [dirs files draws cursor opened length].
      do 2 f_equal. lia.
    + intros i r Hr. unfold advance. cbn [draws cursor].
      replace (i + (1 + cursor w))%nat with (S i + cursor w)%nat by lia.
      now apply Hw.
Qed.

(** X13. The shuffle buffer of [input_fn] holds [_NUM_IMAGES['train']]
    records, so for a training set of at most that many records the
    shuffle covers the whole epoch: every order of the records is the
    order of a pass for some random stream. *)
Theorem shuffle_full_epoch (w : world) (filenames : list string)
    (per_file : list (list (list byte))) (target : list (list byte)) :
  Forall2 (file_has_records w) filenames per_file ->
  Z.of_nat (length (mjoin per_file)) <= _NUM_IMAGES train ->
  target ≡ₚ mjoin per_file ->
  exists (stream : nat -> Z) (w' : world),
    tf_data.shuffle (record_dataset filenames) (_NUM_IMAGES train)
      (World (dirs w) (files w) stream 0 (opened w))
    = (Ok target, w') /\
    cursor w' = length target /\
    opened w' = opened w ++ filenames.
Proof.
  intros Hfiles Hfit Hperm.
  destruct (shuffle_emit_reaches (Z.to_nat (_NUM_IMAGES train)) target []
              (mjoin per_file) (length (mjoin per_file)))
    as [words Hwords].
  - exact Hperm.
  - change (_NUM_IMAGES train) with 50000 in *. cbn [length]. clear - Hfit. lia.
  - now rewrite Hperm.
  - exists (fun i => nth i words 0). eexists.
    unfold tf_data.shuffle.
    destruct (decide _) as [Hno|_]; [exact (False_rect _ (Hno eq_refl))|].
    unfold mbind, M_bind.
    rewrite (record_dataset_run w
               (World (dirs w) (files w) (fun i => nth i words 0) 0 (opened w))
               filenames per_file Hfiles eq_refl).
    rewrite Hwords.
    + split; [reflexivity|]. split; [|reflexivity].
      unfold advance, log_opened. cbn [cursor]. apply Nat.add_0_r.
    + intros i r Hr. unfold log_opened. cbn [draws cursor].
      rewrite Nat.add_0_r, nth_lookup, Hr. reflexivity.
Qed.

Lemma shuffle_full_epoch_witness :
  exists (stream : nat -> Z) (w' : world),
    tf_data.shuffle
      (record_dataset ["/tmp/cifar10_data/cifar-10-batches-bin/test_batch.bin"])
      (_NUM_IMAGES train)
      (World (dirs eval_world) (files eval_world) stream 0 (opened eval_world))
    = (Ok [flat_record x03 x04; flat_record x01 x02], w') /\
    cursor w' = 2%nat.
Proof.
  destruct (shuffle_full_epoch eval_world
              ["/tmp/cifar10_data/cifar-10-batches-bin/test_batch.bin"]
              [[flat_record x01 x02; flat_record x03 x04]]
              [flat_record x03 x04; flat_record x01 x02])
    as (stream & w' & Hrun & Hcursor & _).
  - repeat constructor; eexists; (split; [vm_compute; reflexivity | reflexivity]).
  - vm_compute. discriminate.
  - apply perm_swap.
  - exists stream, w'. split; [exact Hrun | exact Hcursor].
Defined.

End properties.

(** * Runs with the sums taken from left to right *)

#[global] Existing Instance tf_image.left_to_right.

Lemma get_filenames_cases_witness :
  get_filenames false "/tmp/cifar10_data" data_world
  = (Ok ["/tmp/cifar10_data/cifar-10-batches-bin/test_batch.bin"], data_world) /\
  input_fn true "/tmp/cifar10_data" 128 1 bare_world
  = (Raise not_downloaded, bare_world).
Proof.
  split.
  - apply (get_filenames_cases data_world "/tmp/cifar10_data").
    left. unfold data_world. cbn [dirs]. apply elem_of_singleton_2. reflexivity.
  - apply (get_filenames_cases bare_world "/tmp/cifar10_data").
    unfold path_exists, bare_world. cbn [dirs files].
    intros [Hd|[x Hf]].
    + exact (not_elem_of_empty _ Hd).
    + rewrite lookup_empty in Hf. discriminate.
Defined.


(** At training time, by contrast, the output follows the random draws:
    the crop offsets and the flip take four words of the stream. *)
Lemma preprocess_image_training_draws :
  let image := (decoded (flat_record x01 x20)).1 in
  let w1 := World ∅ ∅ (fun _ => 0) 0 [] in
  let w2 := World ∅ ∅ (fun _ => 4) 0 [] in
  exists out1 out2 w1' w2',
    preprocess_image image true w1 = (Ok out1, w1') /\
    preprocess_image image true w2 = (Ok out2, w2') /\
    cursor w1' = 4%nat /\ cursor w2' = 4%nat /\
    tf.at3 out1 0 0 0 ≠ tf.at3 out2 0 0 0.
Proof.
  cbv zeta. eexists _, _, _, _.
  split; [vm_compute; reflexivity|]. split; [vm_compute; reflexivity|].
  split; [reflexivity|]. split; [reflexivity|].
  vm_compute. discriminate.
Qed.

Lemma input_fn_keeps_partial_batch_witness :
  exists fulls final w',
    input_fn true "/tmp/cifar10_data" 2 1 train_world
    = (Ok (fulls ++ [final]), w') /\
    length fulls = 2%nat /\
    Forall (fun b => batch_len b = 2%nat /\ length b.2 = 2%nat) fulls /\
    batch_len final = 1%nat.
Proof.
  destruct (input_fn_keeps_partial_batch true "/tmp/cifar10_data" 2 1 train_world
              ["/tmp/cifar10_data/cifar-10-batches-bin/data_batch_1.bin";
               "/tmp/cifar10_data/cifar-10-batches-bin/data_batch_2.bin";
               "/tmp/cifar10_data/cifar-10-batches-bin/data_batch_3.bin";
               "/tmp/cifar10_data/cifar-10-batches-bin/data_batch_4.bin";
               "/tmp/cifar10_data/cifar-10-batches-bin/data_batch_5.bin"]
              [[flat_record x01 x10]; [flat_record x02 x20];
               [flat_record x03 x30]; [flat_record x04 x40];
               [flat_record x05 x50]])
    as (fulls & final & w' & Hrun & Hq & Hall & Hfin & _).
  - vm_compute. reflexivity.
  - repeat constructor; eexists; (split; [vm_compute; reflexivity | reflexivity]).
  - reflexivity.
  - vm_compute. discriminate.
  - exists fulls, final, w'. repeat split; assumption.
Defined.

Lemma preprocess_image_shape_witness :
  exists out w',
    preprocess_image (decoded (flat_record x01 x20)).1 true
      (stream_world (fun n => Z.of_nat n)) = (Ok out, w') /\
    tf.has_shape out 32 32 3 /\ cursor w' = 4%nat.
Proof.
  destruct (preprocess_image_shape (decoded (flat_record x01 x20)).1 true
              (stream_world (fun n => Z.of_nat n)))
    as (out & w' & Hrun & Hshape & Hcursor & _).
  - apply decoded_shape. reflexivity.
  - exists out, w'. split; [exact Hrun|]. split; [exact Hshape | exact Hcursor].
Defined.

Lemma preprocess_image_centre_crop_witness :
  (preprocess_image (decoded (flat_record x01 x20)).1 true
     (stream_world (fun n => if (n =? 3)%nat then 2 ^ 23 else 4))).1
  = Ok (tf_image.per_image_standardization (decoded (flat_record x01 x20)).1).
Proof.
  destruct (preprocess_image_centre_crop (decoded (flat_record x01 x20)).1
              (stream_world (fun n => if (n =? 3)%nat then 2 ^ 23 else 4)))
    as [Hrun _].
  - apply decoded_shape. reflexivity.
  - reflexivity.
  - reflexivity.
  - rewrite Hrun. reflexivity.
Defined.

Lemma input_fn_batch_structure_witness :
  exists batches w',
    input_fn true "/tmp/cifar10_data" 5 2 train_world = (Ok batches, w') /\
    length batches = 2%nat /\
    Forall (fun b => (1 <= batch_len b <= 5)%nat /\ length b.2 = batch_len b)
           batches.
Proof.
  destruct (input_fn_batch_structure true "/tmp/cifar10_data" 5 2 train_world
              ["/tmp/cifar10_data/cifar-10-batches-bin/data_batch_1.bin";
               "/tmp/cifar10_data/cifar-10-batches-bin/data_batch_2.bin";
               "/tmp/cifar10_data/cifar-10-batches-bin/data_batch_3.bin";
               "/tmp/cifar10_data/cifar-10-batches-bin/data_batch_4.bin";
               "/tmp/cifar10_data/cifar-10-batches-bin/data_batch_5.bin"]
              [[flat_record x01 x10]; [flat_record x02 x20];
               [flat_record x03 x30]; [flat_record x04 x40];
               [flat_record x05 x50]])
    as (batches & w' & Hrun & Hcount & Hall & _).
  - vm_compute. reflexivity.
  - repeat constructor; eexists; (split; [vm_compute; reflexivity | reflexivity]).
  - reflexivity.
  - exists batches, w'. split; [exact Hrun|]. split; [exact Hcount | exact Hall].
Defined.

Lemma input_fn_batches_stack_witness :
  exists batches w',
    input_fn false "/tmp/cifar10_data" 128 1 eval_world = (Ok batches, w') /\
    Forall (fun b => Forall (fun image => tf.has_shape image 32 32 3) b.1 /\
                     Forall (fun label => length label = 10%nat) b.2) batches.
Proof.
  apply (input_fn_batches_stack false "/tmp/cifar10_data" 128 1 eval_world
           ["/tmp/cifar10_data/cifar-10-batches-bin/test_batch.bin"]
           [[flat_record x01 x02; flat_record x03 x04]]).
  - vm_compute. reflexivity.
  - repeat constructor; eexists; (split; [vm_compute; reflexivity | reflexivity]).
  - reflexivity.
Defined.

Lemma input_fn_epochs_witness :
  exists batches w' passes,
    input_fn true "/tmp/cifar10_data" 2 3 train_world = (Ok batches, w') /\
    unbatch batches = ((mjoin passes).*1, (mjoin passes).*2) /\
    length passes = 3%nat.
Proof.
  destruct (input_fn_epochs true "/tmp/cifar10_data" 2 3 train_world
              ["/tmp/cifar10_data/cifar-10-batches-bin/data_batch_1.bin";
               "/tmp/cifar10_data/cifar-10-batches-bin/data_batch_2.bin";
               "/tmp/cifar10_data/cifar-10-batches-bin/data_batch_3.bin";
               "/tmp/cifar10_data/cifar-10-batches-bin/data_batch_4.bin";
               "/tmp/cifar10_data/cifar-10-batches-bin/data_batch_5.bin"]
              [[flat_record x01 x10]; [flat_record x02 x20];
               [flat_record x03 x30]; [flat_record x04 x40];
               [flat_record x05 x50]])
    as (batches & w' & passes & Hrun & Hun & Hlen & _).
  - vm_compute. reflexivity.
  - repeat constructor; eexists; (split; [vm_compute; reflexivity | reflexivity]).
  - reflexivity.
  - exists batches, w', passes. split; [exact Hrun|]. split; [exact Hun | exact Hlen].
Defined.

Lemma input_fn_eval_in_order_witness :
  input_fn false "/tmp/cifar10_data" 128 2 eval_world
  = (Ok (batched 128
           (mjoin (replicate 2
                     (eval_sample <$> [flat_record x01 x02; flat_record x03 x04])))),
     log_opened eval_world
       ["/tmp/cifar10_data/cifar-10-batches-bin/test_batch.bin";
        "/tmp/cifar10_data/cifar-10-batches-bin/test_batch.bin"]).
Proof.
  apply (input_fn_eval_in_order "/tmp/cifar10_data" 128 2 eval_world
           ["/tmp/cifar10_data/cifar-10-batches-bin/test_batch.bin"]
           [[flat_record x01 x02; flat_record x03 x04]]).
  - vm_compute. reflexivity.
  - repeat constructor; eexists; (split; [vm_compute; reflexivity | reflexivity]).
  - reflexivity.
Defined.

Lemma input_fn_missing_file_witness :
  input_fn false "/tmp/cifar10_data" 128 1 data_world
  = (Raise (NotFoundError "/tmp/cifar10_data/cifar-10-batches-bin/test_batch.bin"),
     log_opened data_world
       ["/tmp/cifar10_data/cifar-10-batches-bin/test_batch.bin"]).
Proof.
  apply (input_fn_missing_file false "/tmp/cifar10_data" 128 0 data_world
           [] [] "/tmp/cifar10_data/cifar-10-batches-bin/test_batch.bin" []).
  - vm_compute. reflexivity.
  - constructor.
  - reflexivity.
  - reflexivity.
  - reflexivity.
Defined.
